(** * absorbance96_mcp: the assay-metrics calculator and the reader tools

    A model of [absorbance96_mcp.py].  Python exceptions are an explicit
    error result, and the vendor SDK is an oracle answering a tree of
    calls.

    The numbers are exact: a field of the input is read as the decimal
    number it writes (a rational), and the statistics are computed on
    real numbers, so that sums, squares, quotients and roots neither
    round, overflow nor underflow.  What a float has and a real has not
    is outside this model: the literals inf, infinity and nan, which
    [float()] reads and [float_of_string] does not, the nearest double
    of a decimal, signed zero, and the OverflowError of [** 2].  Strings
    are ASCII.  Every statement about a computed number below is a
    statement over this exact arithmetic. *)

From Stdlib Require Import Reals Lra Psatz String Ascii List ZArith QArith Qabs Qreals Lia.
From Stdlib Require Import DecimalString.
Import ListNotations.

Set Implicit Arguments.

Open Scope string_scope.

(** ** Python exceptions and results *)

(** The exception classes the program can meet.  [BaseExceptionOnly]
    stands for the classes outside [Exception] (KeyboardInterrupt,
    SystemExit), which [except Exception] lets through. *)
Inductive exn : Type :=
| ValueError (msg : string)
| IndexError (msg : string)
| ZeroDivisionError (msg : string)
| StatisticsError (msg : string)
| NameError (msg : string)
| OtherException (msg : string)
| BaseExceptionOnly (msg : string).

(** [isinstance(e, Exception)] *)
Definition is_Exception (e : exn) : bool :=
  match e with
  | BaseExceptionOnly _ => false
  | _ => true
  end.

(** [str(e)] *)
Definition str_exn (e : exn) : string :=
  match e with
  | ValueError m | IndexError m | ZeroDivisionError m | StatisticsError m
  | NameError m | OtherException m | BaseExceptionOnly m => m
  end.

Inductive pyres (A : Type) : Type :=
| Ok (a : A)
| Raise (e : exn).

Arguments Ok {A} a.
Arguments Raise {A} e.

Definition bind {A B : Type} (m : pyres A) (k : A -> pyres B) : pyres B :=
  match m with
  | Ok a => k a
  | Raise e => Raise e
  end.

Declare Scope py_scope.
Delimit Scope py_scope with py.
Notation "x <- m ;; k" := (bind m (fun x => k))
  (at level 61, m at next level, right associativity) : py_scope.

(** What a call of a tool function ends in: a returned string, a returned
    [None] (control falls off the end of the body), or an exception that
    leaves the function. *)
Inductive outcome : Type :=
| ReturnStr (s : string)
| ReturnNone
| Escapes (e : exn).

(** [try: body  except Exception as e: return prefix + str(e)] *)
Definition try_except (prefix : string) (body : pyres outcome) : outcome :=
  match body with
  | Ok o => o
  | Raise e => if is_Exception e then ReturnStr (prefix ++ str_exn e)%string else Escapes e
  end.

(** ** The statistics module, on reals *)

Open Scope R_scope.
Open Scope py_scope.

(** Builtin [sum]: left to right from 0. *)
Definition sum (l : list R) : R := fold_left Rplus l 0.

(** [statistics.mean] *)
Definition mean (data : list R) : pyres R :=
  match data with
  | [] => Raise (StatisticsError "mean requires at least one data point")
  | _ :: _ => Ok (sum data / INR (length data))
  end.

(** [statistics.stdev]: the sample standard deviation. *)
Definition stdev (data : list R) : pyres R :=
  if (length data <? 2)%nat
  then Raise (StatisticsError "stdev requires at least two data points")
  else
    let xbar := sum data / INR (length data) in
    Ok (sqrt (sum (map (fun x => (x - xbar) ^ 2) data) / INR (length data - 1))).

(** [l[i]] for a non-negative index. *)
Definition getitem (l : list R) (i : nat) : pyres R :=
  match nth_error l i with
  | Some x => Ok x
  | None => Raise (IndexError "list index out of range")
  end.

(** [l[i:j]] for non-negative bounds. *)
Definition slice (l : list R) (i j : nat) : list R :=
  firstn (j - i) (skipn i l).

(** [x / y] on floats. *)
Definition truediv (x y : R) : pyres R :=
  if Req_dec_T y 0
  then Raise (ZeroDivisionError "float division by zero")
  else Ok (x / y).

(** [sum(f(i) for i in idx)], where evaluating a term can raise. *)
Fixpoint sum_gen (f : nat -> pyres R) (idx : list nat) (acc : R) : pyres R :=
  match idx with
  | [] => Ok acc
  | i :: rest => x <- f i ;; sum_gen f rest (acc + x)
  end.

(** [range(start, stop, step)] for a positive step. *)
Fixpoint range_from (fuel start stop step : nat) : list nat :=
  match fuel with
  | O => []
  | S fuel' =>
      if (start <? stop)%nat
      then start :: range_from fuel' (start + step) stop step
      else []
  end.

Definition range (start stop step : nat) : list nat :=
  range_from stop start stop step.

(** ** calculate_assay_metrics: the numeric body *)

Record MetricsResult : Type := mkMetrics {
  r_squared : R;
  average_cv_percent : R
}.

(** Lines 108-119: the curve sample and its R². *)
Definition r_squared_step (abs_list conc_list : list R) : pyres R :=
  let abs_curve := firstn 6 abs_list in
  let n := length abs_curve in
  mean_conc <- mean conc_list ;;
  mean_abs <- mean abs_curve ;;
  numerator <-
    sum_gen (fun i => c <- getitem conc_list i ;;
                      a <- getitem abs_curve i ;;
                      Ok ((c - mean_conc) * (a - mean_abs)))
            (seq 0 n) 0 ;;
  denom_conc <-
    sum_gen (fun i => c <- getitem conc_list i ;; Ok ((c - mean_conc) ^ 2))
            (seq 0 n) 0 ;;
  denom_abs <-
    sum_gen (fun i => a <- getitem abs_curve i ;; Ok ((a - mean_abs) ^ 2))
            (seq 0 n) 0 ;;
  if Rlt_dec 0 (denom_conc * denom_abs)
  then truediv (numerator ^ 2) (denom_conc * denom_abs)
  else Ok 0.

(** Lines 123-127: the loop over the triplicate groups. *)
Fixpoint cv_loop (abs_list : list R) (idx : list nat) (cv_values : list R)
  : pyres (list R) :=
  match idx with
  | [] => Ok cv_values
  | i :: rest =>
      let replicate_group := slice abs_list i (i + 3) in
      if (length replicate_group =? 3)%nat
      then
        s <- stdev replicate_group ;;
        m <- mean replicate_group ;;
        q <- truediv s m ;;
        cv_loop abs_list rest (cv_values ++ [q * 100])
      else cv_loop abs_list rest cv_values
  end.

(** Lines 122-129. *)
Definition avg_cv_step (abs_list : list R) : pyres R :=
  cv_values <- cv_loop abs_list (range 0 (Nat.min (length abs_list) 18) 3) [] ;;
  match cv_values with
  | [] => Ok 0
  | _ :: _ => mean cv_values
  end.

(** Lines 108-129, from the parsed lists to the two metrics. *)
Definition assay_metrics (abs_list conc_list : list R) : pyres MetricsResult :=
  r <- r_squared_step abs_list conc_list ;;
  avg_cv <- avg_cv_step abs_list ;;
  Ok (mkMetrics r avg_cv).

(** ** Reading the comma-separated lists *)

Close Scope R_scope.

(** [s.split(sep)] for a one-character separator: never an empty list. *)
Fixpoint split (sep : ascii) (s : string) : list string :=
  match s with
  | EmptyString => [EmptyString]
  | String c s' =>
      if Ascii.eqb c sep
      then EmptyString :: split sep s'
      else match split sep s' with
           | [] => [String c EmptyString]
           | tok :: toks => String c tok :: toks
           end
  end.

(** ASCII white space, as [str.isspace] has it: tab to carriage return,
    the four separators 0x1c-0x1f and the blank. *)
Definition is_space (c : ascii) : bool :=
  let n := nat_of_ascii c in
  ((9 <=? n) && (n <=? 13) || (28 <=? n) && (n <=? 32))%nat.

Fixpoint lstrip (s : string) : string :=
  match s with
  | EmptyString => EmptyString
  | String c s' => if is_space c then lstrip s' else s
  end.

Fixpoint rstrip (s : string) : string :=
  match s with
  | EmptyString => EmptyString
  | String c s' =>
      match rstrip s' with
      | EmptyString => if is_space c then EmptyString else String c EmptyString
      | r => String c r
      end
  end.

(** [s.strip()] *)
Definition strip (s : string) : string := rstrip (lstrip s).

Definition digit_of (c : ascii) : option N :=
  let n := N_of_ascii c in
  if ((48 <=? n) && (n <=? 57))%N then Some (n - 48)%N else None.

(** The rest of a digit part, [(["_"] digit)*], after its first digit:
    the number read so far, how many digits it has, and what is left. *)
Fixpoint digits_tail (acc : N) (cnt : nat) (s : string) : N * nat * string :=
  match s with
  | EmptyString => (acc, cnt, s)
  | String c s' =>
      match digit_of c with
      | Some d => digits_tail (10 * acc + d)%N (S cnt) s'
      | None =>
          if Ascii.eqb c "_"
          then match s' with
               | EmptyString => (acc, cnt, s)
               | String c2 s'' =>
                   match digit_of c2 with
                   | Some d => digits_tail (10 * acc + d)%N (S cnt) s''
                   | None => (acc, cnt, s)
                   end
               end
          else (acc, cnt, s)
      end
  end.

Definition digitpart (s : string) : option (N * nat * string) :=
  match s with
  | EmptyString => None
  | String c s' =>
      match digit_of c with
      | Some d => Some (digits_tail d 1 s')
      | None => None
      end
  end.

(** An optional sign; [true] is minus. *)
Definition take_sign (s : string) : bool * string :=
  match s with
  | String c s' =>
      if Ascii.eqb c "+" then (false, s')
      else if Ascii.eqb c "-" then (true, s')
      else (false, s)
  | EmptyString => (false, s)
  end.

(** [[digitpart] "." digitpart | digitpart ["."]]: the digits as one
    natural number, and how many of them follow the point. *)
Definition number (s : string) : option (N * nat * string) :=
  match s with
  | String "." s' => digitpart s'
  | _ =>
      match digitpart s with
      | Some (i, _, String "." s') =>
          match digitpart s' with
          | Some (f, k, rest) => Some (i * 10 ^ N.of_nat k + f, k, rest)%N
          | None => Some (i, O, s')
          end
      | Some (i, _, rest) => Some (i, O, rest)
      | None => None
      end
  end.

(** [[("e" | "E") [sign] digitpart]] up to the end of the string. *)
Definition exponent (s : string) : option Z :=
  match s with
  | EmptyString => Some 0%Z
  | String c s' =>
      if (Ascii.eqb c "e" || Ascii.eqb c "E")%bool
      then let (neg, s'') := take_sign s' in
           match digitpart s'' with
           | Some (e, _, EmptyString) =>
               Some (if neg then - Z.of_N e else Z.of_N e)%Z
           | _ => None
           end
      else None
  end.

(** [z * 10 ** e], exactly. *)
Definition scale10 (z e : Z) : Q :=
  if (0 <=? e)%Z
  then Qmake (z * 10 ^ e) 1
  else Qmake z (Z.to_pos (10 ^ (- e))).

(** The decimal numerals [float()] reads, with the value they denote.
    The literals of the non-finite floats (inf, infinity, nan) denote no
    number and are not numerals here. *)
Definition float_of_string (s : string) : option Q :=
  let (neg, s1) := take_sign s in
  match number s1 with
  | Some (m, k, rest) =>
      match exponent rest with
      | Some e =>
          Some (scale10 (if neg then - Z.of_N m else Z.of_N m) (e - Z.of_nat k))
      | None => None
      end
  | None => None
  end.

(** [repr(s)] for an ASCII string: in single quotes, or in double quotes
    when the string has a single quote and no double quote; the
    backslash, the quote in use and the control characters escaped. *)
Definition dquote : ascii := Eval compute in ascii_of_nat 34.

Fixpoint has_char (c : ascii) (s : string) : bool :=
  match s with
  | EmptyString => false
  | String c' s' => Ascii.eqb c' c || has_char c s'
  end.

Definition hex_digit (n : nat) : ascii :=
  nth n ["0"; "1"; "2"; "3"; "4"; "5"; "6"; "7"; "8"; "9";
         "a"; "b"; "c"; "d"; "e"; "f"]%char "0"%char.

Definition repr_char (quote c : ascii) : string :=
  let n := nat_of_ascii c in
  if Ascii.eqb c "\" then "\\"
  else if Ascii.eqb c quote then String "\" (String quote EmptyString)
  else if (n =? 9)%nat then "\t"
  else if (n =? 10)%nat then "\n"
  else if (n =? 13)%nat then "\r"
  else if ((n <? 32) || (n =? 127))%nat
       then String "\" (String "x" (String (hex_digit (n / 16))
                                     (String (hex_digit (n mod 16)) EmptyString)))
  else String c EmptyString.

Fixpoint repr_body (quote : ascii) (s : string) : string :=
  match s with
  | EmptyString => EmptyString
  | String c s' => repr_char quote c ++ repr_body quote s'
  end.

Definition repr (s : string) : string :=
  let quote := if (has_char "'" s && negb (has_char dquote s))%bool
               then dquote else "'"%char in
  String quote (repr_body quote s ++ String quote EmptyString).

(** [float(s)] *)
Definition float (s : string) : pyres Q :=
  match float_of_string (strip s) with
  | Some q => Ok q
  | None => Raise (ValueError ("could not convert string to float: " ++ repr s))
  end.

(** [[float(x.strip()) for x in toks]] *)
Fixpoint floats_of (toks : list string) : pyres (list Q) :=
  match toks with
  | [] => Ok []
  | x :: rest =>
      v <- float (strip x) ;;
      vs <- floats_of rest ;;
      Ok (v :: vs)
  end.

(** Lines 104 and 105, for one argument. *)
Definition parse_list (text : string) : pyres (list Q) :=
  floats_of (split "," text).

(** ** Writing the result *)

Open Scope R_scope.

(** Rounding to the nearest integer, ties to even. *)
Definition round_half_even (x : R) : Z :=
  let f := Int_part x in
  let d := x - IZR f in
  if Rlt_dec d (1 / 2) then f
  else if Rlt_dec (1 / 2) d then (f + 1)%Z
  else if Z.even f then f else (f + 1)%Z.

Definition string_of_N (n : N) : string :=
  NilZero.string_of_uint (N.to_uint n).

Fixpoint zeros (k : nat) : string :=
  match k with
  | O => EmptyString
  | S k' => String "0" (zeros k')
  end.

(** [format(x, '.<prec>f')] for [prec > 0]. *)
Definition format_fixed (prec : nat) (x : R) : string :=
  let n := Z.to_N (round_half_even (Rabs x * 10 ^ prec)) in
  let scale := (10 ^ N.of_nat prec)%N in
  let frac := string_of_N (n mod scale) in
  ((if Rlt_dec x 0 then "-" else EmptyString)
   ++ string_of_N (n / scale) ++ "."
   ++ zeros (prec - String.length frac) ++ frac)%string.

(** Line 131. *)
Definition format_metrics (m : MetricsResult) : string :=
  ("R²: " ++ format_fixed 4 (r_squared m)
   ++ ", Average CV: " ++ format_fixed 2 (average_cv_percent m) ++ "%")%string.

(** ** calculate_assay_metrics *)

Definition default_concentrations : string := "0,10,20,50,100,200".

(** The body of the [try], up to the values that are written out. *)
Definition compute_metrics (absorbance_values concentrations : string)
  : pyres MetricsResult :=
  abs_list <- parse_list absorbance_values ;;
  conc_list <- parse_list concentrations ;;
  assay_metrics (map Q2R abs_list) (map Q2R conc_list).

Definition calculate_assay_metrics (absorbance_values concentrations : string)
  : outcome :=
  try_except "Error calculating metrics: "
    (m <- compute_metrics absorbance_values concentrations ;;
     Ok (ReturnStr (format_metrics m))).

(** ** The reader: SDK, module state and the two device tools *)

Close Scope R_scope.

(** A Python object the program only hands on and writes into a message:
    what [str] gives is all it shows of itself. *)
Record pyobj : Type := PyObj { py_str : string }.

(** [byonoy.ErrorCode], of which the program names one member. *)
Inductive ErrorCode : Type :=
| NO_ERROR
| ERROR_CODE (name : string).

(** [byonoy.DeviceSlotState], of which the program names one member. *)
Inductive DeviceSlotState : Type :=
| EMPTY
| SLOT_STATE (name : string).

Definition ErrorCode_eqb (a b : ErrorCode) : bool :=
  match a, b with
  | NO_ERROR, NO_ERROR => true
  | ERROR_CODE x, ERROR_CODE y => String.eqb x y
  | _, _ => false
  end.

Definition DeviceSlotState_eqb (a b : DeviceSlotState) : bool :=
  match a, b with
  | EMPTY, EMPTY => true
  | SLOT_STATE x, SLOT_STATE y => String.eqb x y
  | _, _ => false
  end.

Definition str_ErrorCode (c : ErrorCode) : string :=
  match c with
  | NO_ERROR => "ErrorCode.NO_ERROR"
  | ERROR_CODE name => "ErrorCode." ++ name
  end.

Definition str_DeviceSlotState (s : DeviceSlotState) : string :=
  match s with
  | EMPTY => "DeviceSlotState.EMPTY"
  | SLOT_STATE name => "DeviceSlotState." ++ name
  end.

(** [byonoy.Abs96SingleMeasurementConfig] *)
Record Abs96SingleMeasurementConfig : Type := mkConfig {
  sample_wavelength : Z
}.

(** A device handle as Python sees it: [None] or an object. *)
Definition pyhandle : Type := option pyobj.

Definition str_pyhandle (h : pyhandle) : string :=
  match h with
  | None => "None"
  | Some o => py_str o
  end.

(** The calls into [byonoy_devices], indexed by what they answer. *)
Inductive sdk_call : Type -> Type :=
| available_devices_count : sdk_call Z
| available_devices : sdk_call (list pyobj)
| open_device (device : pyobj) : sdk_call (ErrorCode * pyhandle)
| device_slot_status_supported (h : pyhandle) : sdk_call bool
| get_device_slot_status (h : pyhandle) : sdk_call (ErrorCode * DeviceSlotState)
| abs96_available_wavelengths_supported (h : pyhandle) : sdk_call bool
| abs96_get_available_wavelengths (h : pyhandle) : sdk_call (ErrorCode * list Z)
| new_Abs96SingleMeasurementConfig : sdk_call Abs96SingleMeasurementConfig
| abs96_initialize_single_measurement
    (h : pyhandle) (config : Abs96SingleMeasurementConfig) : sdk_call ErrorCode
| abs96_single_measure
    (h : pyhandle) (config : Abs96SingleMeasurementConfig) : sdk_call (ErrorCode * pyobj).

(** A module-level name: not yet assigned, or bound to a value. *)
Inductive binding (A : Type) : Type :=
| Unbound
| Bound (v : A).

Arguments Unbound {A}.
Arguments Bound {A} v.

(** The module's globals the tools touch. *)
Record globals : Type := mkGlobals {
  byonoy_device_handle : binding pyhandle
}.

(** The globals once the module is loaded: line 16, the only assignment
    at module level, is a comment. *)
Definition module_globals : globals := mkGlobals Unbound.

(** A tool body: a tree of global reads, global writes and SDK calls. *)
Inductive prog (A : Type) : Type :=
| Return (a : A)
| Throw (e : exn)
| LoadHandle (k : pyhandle -> prog A)
| StoreHandle (v : pyhandle) (k : prog A)
| Call (X : Type) (c : sdk_call X) (k : X -> prog A).

Arguments Return {A} a.
Arguments Throw {A} e.
Arguments LoadHandle {A} k.
Arguments StoreHandle {A} v k.
Arguments Call {A X} c k.

Fixpoint pbind {A B : Type} (p : prog A) (k : A -> prog B) : prog B :=
  match p with
  | Return a => k a
  | Throw e => Throw e
  | LoadHandle f => LoadHandle (fun h => pbind (f h) k)
  | StoreHandle v f => StoreHandle v (pbind f k)
  | Call c f => Call c (fun x => pbind (f x) k)
  end.

Definition load_handle : prog pyhandle := LoadHandle Return.
Definition store_handle (v : pyhandle) : prog unit := StoreHandle v (Return tt).
Definition call {X : Type} (c : sdk_call X) : prog X := Call c Return.

Declare Scope prog_scope.
Delimit Scope prog_scope with prog.
Notation "x <- m ;; k" := (pbind m (fun x => k))
  (at level 61, m at next level, right associativity) : prog_scope.
Notation "' pat <- m ;; k" := (pbind m (fun x => match x with pat => k end))
  (at level 61, pat pattern, m at next level, right associativity) : prog_scope.

(** One SDK call as it was made. *)
Definition call_record : Type := { X : Type & sdk_call X }.

Section Run.

(** The SDK and the device behind it: any state, and any answer or
    exception to each call. *)
Variable World : Type.
Variable respond : forall X : Type, sdk_call X -> World -> pyres X * World.

Record state : Type := mkState {
  st_globals : globals;
  st_world : World;
  st_calls : list call_record
}.

Fixpoint run {A : Type} (p : prog A) (st : state) : pyres A * state :=
  match p with
  | Return a => (Ok a, st)
  | Throw e => (Raise e, st)
  | LoadHandle k =>
      match byonoy_device_handle (st_globals st) with
      | Bound h => run (k h) st
      | Unbound =>
          (Raise (NameError "name 'byonoy_device_handle' is not defined"), st)
      end
  | StoreHandle v k =>
      run k (mkState (mkGlobals (Bound v)) (st_world st) (st_calls st))
  | Call c k =>
      let (answer, w) := respond c (st_world st) in
      let st' := mkState (st_globals st) w (st_calls st ++ [existT _ _ c]) in
      match answer with
      | Ok x => run (k x) st'
      | Raise e => (Raise e, st')
      end
  end.

(** A tool function: its body inside [try ... except Exception]. *)
Definition tool (prefix : string) (body : prog outcome) (st : state)
  : outcome * state :=
  let (r, st') := run body st in (try_except prefix r, st').

End Run.

(** [str] of an integer and of a list of integers. *)
Definition str_Z (z : Z) : string :=
  (if (z <? 0)%Z then "-" else EmptyString) ++ string_of_N (Z.abs_N z).

Fixpoint join (sep : string) (l : list string) : string :=
  match l with
  | [] => EmptyString
  | [x] => x
  | x :: rest => x ++ sep ++ join sep rest
  end.

Definition str_list_Z (l : list Z) : string :=
  "[" ++ join ", " (map str_Z l) ++ "]".

(** [config.sample_wavelength = wavelength] *)
Definition set_sample_wavelength
  (config : Abs96SingleMeasurementConfig) (wavelength : Z)
  : Abs96SingleMeasurementConfig :=
  mkConfig wavelength.

Open Scope prog_scope.

(** Lines 23-34. *)
Definition connect_byonoy_reader_body : prog outcome :=
  num_devices <- call available_devices_count ;;
  if (num_devices =? 0)%Z
  then Return (ReturnStr "No Byonoy devices found")
  else
    devices <- call available_devices ;;
    match nth_error devices 0 with
    | None => Throw (IndexError "list index out of range")
    | Some device =>
        '(result_code, device_handle) <- call (open_device device) ;;
        if ErrorCode_eqb result_code NO_ERROR
        then
          _ <- store_handle device_handle ;;
          Return (ReturnStr ("Connected to Byonoy device successfully. Handle: "
                             ++ str_pyhandle device_handle))
        else Return (ReturnStr ("Failed to connect: " ++ str_ErrorCode result_code))
    end.

(** Lines 59-72.  When the SDK does not support the wavelength query the
    [if] of line 60 is skipped, and with it every [return]: control
    reaches the end of the function. *)
Definition initialize_measurement (wavelength : Z) : prog outcome :=
  h <- load_handle ;;
  supported <- call (abs96_available_wavelengths_supported h) ;;
  if (supported : bool)
  then
    h <- load_handle ;;
    '(result_code, abs_wavelengths) <- call (abs96_get_available_wavelengths h) ;;
    if negb (existsb (Z.eqb wavelength) abs_wavelengths)
    then Return (ReturnStr ("Wavelength " ++ str_Z wavelength
                            ++ " not available. Available: "
                            ++ str_list_Z abs_wavelengths))
    else
      config <- call new_Abs96SingleMeasurementConfig ;;
      let config := set_sample_wavelength config wavelength in
      h <- load_handle ;;
      result_code <- call (abs96_initialize_single_measurement h config) ;;
      if ErrorCode_eqb result_code NO_ERROR
      then Return (ReturnStr ("✅ Measurement initialized at " ++ str_Z wavelength
                              ++ "nm. INSERT PLATE NOW, then run with step='measure'"))
      else Return (ReturnStr ("❌ Initialize failed: " ++ str_ErrorCode result_code))
  else Return ReturnNone.

(** Lines 53-72. *)
Definition initialize_step (wavelength : Z) : prog outcome :=
  h <- load_handle ;;
  supported <- call (device_slot_status_supported h) ;;
  if (supported : bool)
  then
    h <- load_handle ;;
    '(result_code, slot_status) <- call (get_device_slot_status h) ;;
    if (ErrorCode_eqb result_code NO_ERROR
        && negb (DeviceSlotState_eqb slot_status EMPTY))%bool
    then Return (ReturnStr ("❌ Remove plate first - slot status: "
                            ++ str_DeviceSlotState slot_status))
    else initialize_measurement wavelength
  else initialize_measurement wavelength.

(** Lines 81-89. *)
Definition take_measurement (wavelength : Z) : prog outcome :=
  config <- call new_Abs96SingleMeasurementConfig ;;
  let config := set_sample_wavelength config wavelength in
  h <- load_handle ;;
  '(result_code, values) <- call (abs96_single_measure h config) ;;
  if ErrorCode_eqb result_code NO_ERROR
  then Return (ReturnStr ("📊 Absorbance values at " ++ str_Z wavelength
                          ++ "nm: " ++ py_str values))
  else Return (ReturnStr ("❌ Measurement failed: " ++ str_ErrorCode result_code
                          ++ ". Check plate positioning.")).

(** Lines 75-89. *)
Definition measure_step (wavelength : Z) : prog outcome :=
  h <- load_handle ;;
  supported <- call (device_slot_status_supported h) ;;
  if (supported : bool)
  then
    h <- load_handle ;;
    '(result_code, slot_status) <- call (get_device_slot_status h) ;;
    if (ErrorCode_eqb result_code NO_ERROR
        && DeviceSlotState_eqb slot_status EMPTY)%bool
    then Return (ReturnStr "❌ No plate detected. Please insert plate first.")
    else take_measurement wavelength
  else take_measurement wavelength.

(** Lines 49-92. *)
Definition read_tartrazine_absorbance_body (wavelength : Z) (step : string)
  : prog outcome :=
  h <- load_handle ;;
  match h with
  | None => Return (ReturnStr "Please connect to Byonoy reader first")
  | Some _ =>
      if String.eqb step "initialize" then initialize_step wavelength
      else if String.eqb step "measure" then measure_step wavelength
      else Return (ReturnStr "Invalid step. Use step='initialize' or step='measure'")
  end.

Close Scope prog_scope.

Section Tools.

Variable World : Type.
Variable respond : forall X : Type, sdk_call X -> World -> pyres X * World.

Definition connect_byonoy_reader (st : state World) : outcome * state World :=
  tool respond "Error: " connect_byonoy_reader_body st.

Definition read_tartrazine_absorbance
  (wavelength : Z) (step : string) (st : state World)
  : outcome * state World :=
  tool respond "Error: " (read_tartrazine_absorbance_body wavelength step) st.

(** The process as it starts: the module loaded, no call made yet. *)
Definition start (w : World) : state World := mkState module_globals w [].

End Tools.

Definition default_wavelength : Z := 450.
Definition default_step : string := "initialize".

(** * Definitions for the statements *)

Unset Implicit Arguments.
Open Scope list_scope.
Open Scope R_scope.

(** The sum of [g 0 .. g (n-1)], as one writes it on paper. *)
Definition sigma (g : nat -> R) (n : nat) : R :=
  fold_right Rplus 0 (map g (seq 0 n)).

Definition mean_of (l : list R) : R := sum l / INR (length l).

(** The sum of squared deviations of a series from its own mean: the
    [var_c] and [var_a] of the specification. *)
Definition sum_sq_dev (xs : list R) : R :=
  sum (map (fun x => (x - mean_of xs) ^ 2) xs).

(** What lines 115-119 compute when no index is out of range. *)
Definition curve_numerator (conc_list abs_curve : list R) : R :=
  sigma (fun i => (nth i conc_list 0 - mean_of conc_list)
                  * (nth i abs_curve 0 - mean_of abs_curve))
        (length abs_curve).

Definition curve_denom_conc (conc_list abs_curve : list R) : R :=
  sigma (fun i => (nth i conc_list 0 - mean_of conc_list) ^ 2) (length abs_curve).

Definition curve_denom_abs (abs_curve : list R) : R :=
  sigma (fun i => (nth i abs_curve 0 - mean_of abs_curve) ^ 2) (length abs_curve).

Definition curve_r2 (conc_list abs_curve : list R) : R :=
  let d := curve_denom_conc conc_list abs_curve * curve_denom_abs abs_curve in
  if Rlt_dec 0 d then curve_numerator conc_list abs_curve ^ 2 / d else 0.

(** Consecutive groups of 3 from the front of a list; what is left at the
    end, one or two readings, is dropped. *)
Fixpoint triplicates (l : list R) : list (list R) :=
  match l with
  | a :: b :: c :: rest => [a; b; c] :: triplicates rest
  | _ => []
  end.

(** CV% of one group, [stdev / mean * 100]. *)
Definition cv_percent (group : list R) : pyres R :=
  s <- stdev group ;;
  m <- mean group ;;
  q <- truediv s m ;;
  Ok (q * 100).

Fixpoint cv_all (groups : list (list R)) : pyres (list R) :=
  match groups with
  | [] => Ok []
  | g :: gs =>
      cv <- cv_percent g ;;
      cvs <- cv_all gs ;;
      Ok (cv :: cvs)
  end.

(** The CV step in the words of the specification: the complete groups of
    3 among the first 18 readings, their CV%, and the average of those, 0
    when there is none. *)
Definition spec_avg_cv (abs_list : list R) : pyres R :=
  cvs <- cv_all (triplicates (firstn 18 abs_list)) ;;
  match cvs with
  | [] => Ok 0
  | _ :: _ => mean cvs
  end.

(** A result that, when it is an exception, is one [except Exception]
    catches. *)
Definition catchable {A : Type} (r : pyres A) : Prop :=
  forall e, r = Raise e -> is_Exception e = true.

(** The SDK raises nothing outside [Exception]. *)
Definition sdk_raises_Exception_only
  (World : Type) (respond : forall X : Type, sdk_call X -> World -> pyres X * World)
  : Prop :=
  forall (X : Type) (c : sdk_call X) (w : World) (e : exn),
    fst (respond X c w) = Raise e -> is_Exception e = true.

(** An SDK with one reader that opens, and that supports neither the
    slot-status nor the wavelength query. *)
Definition plain_reader (X : Type) (c : sdk_call X) (w : unit) : pyres X * unit :=
  match c in sdk_call T return pyres T * unit with
  | available_devices_count => (Ok 1%Z, tt)
  | available_devices => (Ok [PyObj "device0"], tt)
  | open_device _ => (Ok (NO_ERROR, Some (PyObj "1")), tt)
  | device_slot_status_supported _ => (Ok false, tt)
  | abs96_available_wavelengths_supported _ => (Ok false, tt)
  | get_device_slot_status _ => (Ok (NO_ERROR, EMPTY), tt)
  | abs96_get_available_wavelengths _ => (Ok (NO_ERROR, []), tt)
  | new_Abs96SingleMeasurementConfig => (Ok (mkConfig 0), tt)
  | abs96_initialize_single_measurement _ _ => (Ok NO_ERROR, tt)
  | abs96_single_measure _ _ => (Ok (NO_ERROR, PyObj "[]"), tt)
  end.

(** ** Definitions for the further properties *)

(** Every SDK call a body can make satisfies [P], when the handle it
    loads is [h0]; a body that assigns the handle does not qualify. *)
Fixpoint calls_all {A : Type} (h0 : pyhandle)
  (P : forall X : Type, sdk_call X -> Prop) (p : prog A) : Prop :=
  match p with
  | Return _ => True
  | Throw _ => True
  | LoadHandle k => calls_all h0 P (k h0)
  | StoreHandle _ _ => False
  | Call c k => P _ c /\ forall x, calls_all h0 P (k x)
  end.

(** What a call made for a reading looks like: it is made on the handle
    [h0], a configuration it passes carries [wavelength], and it neither
    counts, lists nor opens devices. *)
Definition read_call_ok (h0 : pyhandle) (wavelength : Z)
  (X : Type) (c : sdk_call X) : Prop :=
  match c with
  | available_devices_count => False
  | available_devices => False
  | open_device _ => False
  | device_slot_status_supported h => h = h0
  | get_device_slot_status h => h = h0
  | abs96_available_wavelengths_supported h => h = h0
  | abs96_get_available_wavelengths h => h = h0
  | new_Abs96SingleMeasurementConfig => True
  | abs96_initialize_single_measurement h config =>
      h = h0 /\ sample_wavelength config = wavelength
  | abs96_single_measure h config =>
      h = h0 /\ sample_wavelength config = wavelength
  end.

Definition record_ok (P : forall X : Type, sdk_call X -> Prop) (r : call_record)
  : Prop :=
  P (projT1 r) (projT2 r).

(** A reader on the bench, for trying the tools: how many devices it
    counts and lists, whether it reports its slot and what is in it, and
    whether it reports its wavelengths and which. *)
Definition bench_reader (count : Z) (devices : list pyobj)
  (slot_supported : bool) (slot : DeviceSlotState)
  (wavelengths_supported : bool) (wavelengths : list Z)
  (X : Type) (c : sdk_call X) (w : unit) : pyres X * unit :=
  match c in sdk_call T return pyres T * unit with
  | available_devices_count => (Ok count, tt)
  | available_devices => (Ok devices, tt)
  | open_device _ => (Ok (NO_ERROR, Some (PyObj "1")), tt)
  | device_slot_status_supported _ => (Ok slot_supported, tt)
  | abs96_available_wavelengths_supported _ => (Ok wavelengths_supported, tt)
  | get_device_slot_status _ => (Ok (NO_ERROR, slot), tt)
  | abs96_get_available_wavelengths _ => (Ok (NO_ERROR, wavelengths), tt)
  | new_Abs96SingleMeasurementConfig => (Ok (mkConfig 0), tt)
  | abs96_initialize_single_measurement _ _ => (Ok NO_ERROR, tt)
  | abs96_single_measure _ _ => (Ok (NO_ERROR, PyObj "[0.1, 0.2]"), tt)
  end.

(** A number of magnitude at most 1e150: its distance from the mean of
    such numbers can be squared in a double. *)
Definition moderate (q : Q) : bool :=
  Qle_bool (Qabs q) (inject_Z (10 ^ 150)).

(** How often a character occurs in a string. *)
Fixpoint count_char (c : ascii) (s : string) : nat :=
  match s with
  | EmptyString => O
  | String c' s' => (if Ascii.eqb c' c then 1 else 0) + count_char c s'
  end.

(** A string of white space only. *)
Fixpoint all_space (s : string) : bool :=
  match s with
  | EmptyString => true
  | String c s' => is_space c && all_space s'
  end.

(** * Properties *)

(** Evaluating sums of concrete reals. *)
Ltac real_eval :=
  unfold sum_sq_dev, mean_of, sum, Q2R; simpl; lra.

(** Evaluating the R² of concrete curves. *)
Ltac curve_eval :=
  unfold curve_r2, curve_numerator, curve_denom_conc, curve_denom_abs,
         sigma, mean_of, sum, Q2R;
  simpl;
  match goal with
  | |- context [Rlt_dec ?a ?b] =>
      destruct (Rlt_dec a b) as [Hlt | Hnlt]; [| exfalso; apply Hnlt; lra]
  end;
  lra.

Close Scope R_scope.

(** ** The device tools *)

Section DeviceFacts.

Variable World : Type.
Variable respond : forall X : Type, sdk_call X -> World -> pyres X * World.

(** Where the handle is bound to [None], the guard of line 49 answers,
    and the SDK is not called. *)
Lemma read_with_None_handle (wavelength : Z) (step : string) (w : World)
  (calls : list call_record) :
  let st := mkState (mkGlobals (Bound None)) w calls in
  read_tartrazine_absorbance respond wavelength step st
  = (ReturnStr "Please connect to Byonoy reader first", st).
Proof. reflexivity. Qed.

(** C4, as the code has it: in a fresh process the name
    [byonoy_device_handle] has never been assigned, so the test of
    line 49 raises NameError, and the tool answers with the message of
    that exception, not with the request to connect.  No SDK call is
    made and the state is left as it was. *)
Theorem read_before_connect_reports_NameError
  (wavelength : Z) (step : string) (w : World) :
  read_tartrazine_absorbance respond wavelength step (start w)
  = (ReturnStr "Error: name 'byonoy_device_handle' is not defined", start w).
Proof. reflexivity. Qed.

(** X23: connect_byonoy_reader has a [return] of a string on each of its
    paths: when the SDK raises nothing outside Exception, it returns a
    string. *)
Lemma connect_byonoy_reader_returns_str (st : state World) :
  sdk_raises_Exception_only World respond ->
  exists s, fst (connect_byonoy_reader respond st) = ReturnStr s.
Proof.
  intros Hsdk. unfold sdk_raises_Exception_only in Hsdk.
  unfold connect_byonoy_reader, tool, connect_byonoy_reader_body; simpl.
  destruct (respond _ available_devices_count (st_world st)) as [[n | e] w1] eqn:E1;
    simpl.
  2:{ rewrite (Hsdk _ available_devices_count (st_world st) e) by (rewrite E1; reflexivity).
      eauto. }
  destruct (n =? 0)%Z; simpl; [eauto |].
  destruct (respond _ available_devices w1) as [[ds | e] w2] eqn:E2; simpl.
  2:{ rewrite (Hsdk _ available_devices w1 e) by (rewrite E2; reflexivity).
      eauto. }
  destruct ds as [| d ds]; simpl; [eauto |].
  destruct (respond _ (open_device d) w2) as [[[rc h] | e] w3] eqn:E3; simpl.
  2:{ rewrite (Hsdk _ (open_device d) w2 e) by (rewrite E3; reflexivity).
      eauto. }
  destruct (ErrorCode_eqb rc NO_ERROR); simpl; eauto.
Qed.

End DeviceFacts.

(** C3, as the code has it: after a successful connect, the initialize
    step on a reader whose SDK does not support the wavelength query
    skips the block of line 60 and falls off the end of the function:
    the tool returns [None], not a string. *)
Theorem read_initialize_returns_None :
  let (connected, st) := connect_byonoy_reader plain_reader (start tt) in
  connected = ReturnStr "Connected to Byonoy device successfully. Handle: 1"
  /\ fst (read_tartrazine_absorbance plain_reader default_wavelength default_step st)
     = ReturnNone.
Proof. vm_compute. split; reflexivity. Qed.

(** ** Sums *)

Open Scope R_scope.

Lemma fold_left_Rplus (l : list R) (a : R) :
  fold_left Rplus l a = a + fold_right Rplus 0 l.
Proof.
  revert a; induction l as [| x l IH]; intros a; simpl.
  - lra.
  - rewrite IH. lra.
Qed.

Lemma sum_fold_right (l : list R) : sum l = fold_right Rplus 0 l.
Proof. unfold sum. rewrite fold_left_Rplus. lra. Qed.

Lemma sum_cons (x : R) (l : list R) : sum (x :: l) = x + sum l.
Proof. rewrite !sum_fold_right. reflexivity. Qed.

Lemma sum_gen_ok (f : nat -> pyres R) (g : nat -> R) (idx : list nat) (acc : R) :
  (forall i, In i idx -> f i = Ok (g i)) ->
  sum_gen f idx acc = Ok (acc + fold_right Rplus 0 (map g idx)).
Proof.
  revert acc; induction idx as [| i idx IH]; intros acc Hf; simpl.
  - f_equal. lra.
  - rewrite (Hf i) by (left; reflexivity). simpl.
    rewrite IH by (intros j Hj; apply Hf; right; exact Hj).
    f_equal. lra.
Qed.

Lemma sum_gen_seq (f : nat -> pyres R) (g : nat -> R) (n : nat) :
  (forall i, (i < n)%nat -> f i = Ok (g i)) ->
  sum_gen f (seq 0 n) 0 = Ok (sigma g n).
Proof.
  intros Hf. rewrite (sum_gen_ok f g).
  - unfold sigma. f_equal. lra.
  - intros i Hi. apply in_seq in Hi. apply Hf. lia.
Qed.

Lemma getitem_nth (l : list R) (i : nat) :
  (i < length l)%nat -> getitem l i = Ok (nth i l 0).
Proof.
  intros Hi. unfold getitem.
  destruct (nth_error l i) as [x |] eqn:E.
  - f_equal. symmetry. apply nth_error_nth. exact E.
  - apply nth_error_None in E. lia.
Qed.

Lemma getitem_out_of_range (l : list R) (i : nat) :
  (length l <= i)%nat -> getitem l i = Raise (IndexError "list index out of range").
Proof.
  intros Hi. unfold getitem.
  apply nth_error_None in Hi. rewrite Hi. reflexivity.
Qed.

Lemma sigma_S (g : nat -> R) (n : nat) :
  sigma g (S n) = g O + sigma (fun i => g (S i)) n.
Proof.
  unfold sigma. simpl. rewrite <- seq_shift, map_map. reflexivity.
Qed.

Lemma sigma_ext (g h : nat -> R) (n : nat) :
  (forall i, (i < n)%nat -> g i = h i) -> sigma g n = sigma h n.
Proof.
  intros H. unfold sigma. f_equal. apply map_ext_in.
  intros i Hi. apply in_seq in Hi. apply H. lia.
Qed.

Lemma sigma_map (h : R -> R) (l : list R) :
  sigma (fun i => h (nth i l 0)) (length l) = fold_right Rplus 0 (map h l).
Proof.
  induction l as [| x l IH]; [reflexivity |].
  simpl length. rewrite sigma_S. simpl. rewrite IH. reflexivity.
Qed.

Lemma sigma_plus (g h : nat -> R) (n : nat) :
  sigma (fun i => g i + h i) n = sigma g n + sigma h n.
Proof.
  revert g h; induction n as [| n IH]; intros g h.
  - unfold sigma; simpl; lra.
  - rewrite !sigma_S, IH. lra.
Qed.

Lemma sigma_scal (k : R) (g : nat -> R) (n : nat) :
  sigma (fun i => k * g i) n = k * sigma g n.
Proof.
  revert g; induction n as [| n IH]; intros g.
  - unfold sigma; simpl; lra.
  - rewrite !sigma_S, IH. lra.
Qed.

Lemma sigma_const (k : R) (n : nat) : sigma (fun _ => k) n = INR n * k.
Proof.
  induction n as [| n IH].
  - unfold sigma; simpl; lra.
  - rewrite sigma_S, IH, S_INR. lra.
Qed.

Lemma sigma_sq_nonneg (g : nat -> R) (n : nat) : 0 <= sigma (fun i => g i ^ 2) n.
Proof.
  revert g; induction n as [| n IH]; intros g.
  - unfold sigma; simpl; lra.
  - rewrite sigma_S. specialize (IH (fun i => g (S i))). simpl in *. nra.
Qed.

Lemma sigma_sq_zero (g : nat -> R) (n : nat) :
  sigma (fun i => g i ^ 2) n = 0 -> forall i, (i < n)%nat -> g i = 0.
Proof.
  revert g; induction n as [| n IH]; intros g H i Hi; [lia |].
  rewrite sigma_S in H.
  pose proof (sigma_sq_nonneg (fun i => g (S i)) n) as Hn.
  assert (H0 : g O ^ 2 = 0) by nra.
  assert (Hr : sigma (fun i => g (S i) ^ 2) n = 0) by nra.
  destruct i as [| i].
  - nra.
  - apply (IH (fun i => g (S i)) Hr). lia.
Qed.

(** Cauchy-Schwarz, from the sign of a quadratic. *)
Lemma sigma_quadratic (u v : nat -> R) (t : R) (n : nat) :
  sigma (fun i => (u i * t + v i) ^ 2) n
  = sigma (fun i => u i ^ 2) n * t ^ 2
    + 2 * sigma (fun i => u i * v i) n * t
    + sigma (fun i => v i ^ 2) n.
Proof.
  revert u v; induction n as [| n IH]; intros u v.
  - unfold sigma; simpl; lra.
  - rewrite !sigma_S, IH. ring.
Qed.

Lemma cauchy_schwarz (u v : nat -> R) (n : nat) :
  0 < sigma (fun i => u i ^ 2) n ->
  sigma (fun i => u i * v i) n ^ 2
  <= sigma (fun i => u i ^ 2) n * sigma (fun i => v i ^ 2) n.
Proof.
  intros HA.
  set (A := sigma (fun i => u i ^ 2) n) in *.
  set (B := sigma (fun i => v i ^ 2) n).
  set (C := sigma (fun i => u i * v i) n).
  pose proof (sigma_sq_nonneg (fun i => u i * (- C / A) + v i) n) as Hq.
  cbv beta in Hq. rewrite sigma_quadratic in Hq. fold A B C in Hq.
  assert (E : A * (A * (- C / A) ^ 2 + 2 * C * (- C / A) + B) = A * B - C ^ 2)
    by (field; lra).
  assert (0 <= A * (A * (- C / A) ^ 2 + 2 * C * (- C / A) + B))
    by (apply Rmult_le_pos; lra).
  lra.
Qed.

(** ** The R² step in closed form *)

Lemma mean_nonempty (l : list R) : l <> [] -> mean l = Ok (mean_of l).
Proof. destruct l; [congruence | reflexivity]. Qed.

Lemma truediv_pos (x y : R) : 0 < y -> truediv x y = Ok (x / y).
Proof.
  intros Hy. unfold truediv.
  destruct (Req_dec_T y 0) as [E | _]; [lra | reflexivity].
Qed.

Lemma r_squared_step_value (abs_list conc_list : list R) :
  abs_list <> [] ->
  (length (firstn 6 abs_list) <= length conc_list)%nat ->
  r_squared_step abs_list conc_list = Ok (curve_r2 conc_list (firstn 6 abs_list)).
Proof.
  intros Hne Hlen.
  unfold r_squared_step, curve_r2, curve_numerator, curve_denom_conc, curve_denom_abs.
  set (abs_curve := firstn 6 abs_list) in *.
  assert (Hcurve : abs_curve <> [])
    by (destruct abs_list; [congruence | discriminate]).
  assert (Hconc : conc_list <> []).
  { destruct conc_list; [| discriminate].
    destruct abs_curve; [congruence | simpl in Hlen; lia]. }
  rewrite (mean_nonempty _ Hconc), (mean_nonempty _ Hcurve). simpl bind.
  rewrite (sum_gen_seq _
    (fun i => (nth i conc_list 0 - mean_of conc_list)
              * (nth i abs_curve 0 - mean_of abs_curve))).
  2:{ intros i Hi. rewrite !getitem_nth by lia. reflexivity. }
  simpl bind.
  rewrite (sum_gen_seq _ (fun i => (nth i conc_list 0 - mean_of conc_list) ^ 2)).
  2:{ intros i Hi. rewrite !getitem_nth by lia. reflexivity. }
  simpl bind.
  rewrite (sum_gen_seq _ (fun i => (nth i abs_curve 0 - mean_of abs_curve) ^ 2)).
  2:{ intros i Hi. rewrite !getitem_nth by lia. reflexivity. }
  simpl bind.
  destruct (Rlt_dec 0 _) as [Hpos | Hnpos]; [| reflexivity].
  apply truediv_pos. exact Hpos.
Qed.

(** A concentration list shorter than the curve sample: line 115 indexes
    past its end. *)
Lemma r_squared_step_short_conc (abs_list conc_list : list R) :
  conc_list <> [] ->
  (length conc_list < length (firstn 6 abs_list))%nat ->
  r_squared_step abs_list conc_list = Raise (IndexError "list index out of range").
Proof.
  intros Hconc Hlen. unfold r_squared_step.
  set (abs_curve := firstn 6 abs_list) in *.
  assert (Hcurve : abs_curve <> [])
    by (destruct abs_curve; [simpl in Hlen; lia | discriminate]).
  rewrite (mean_nonempty _ Hconc), (mean_nonempty _ Hcurve). simpl bind.
  set (f := fun i : nat => _).
  assert (Hgen : forall k acc, (k <= length conc_list)%nat ->
            sum_gen f (seq k (length abs_curve - k)) acc
            = Raise (IndexError "list index out of range")).
  { intros k acc Hk.
    remember (length conc_list - k)%nat as d eqn:Hd.
    revert k acc Hk Hd; induction d as [| d IH]; intros k acc Hk Hd.
    - assert (k = length conc_list) by lia. subst k.
      destruct (length abs_curve - length conc_list)%nat as [| m] eqn:Em; [lia |].
      simpl. unfold f at 1.
      rewrite getitem_out_of_range by lia. reflexivity.
    - destruct (length abs_curve - k)%nat as [| m] eqn:Em; [lia |].
      simpl. unfold f at 1.
      rewrite !getitem_nth by lia. simpl bind.
      replace m with (length abs_curve - S k)%nat by lia.
      apply IH; lia. }
  specialize (Hgen O 0 ltac:(lia)). rewrite Nat.sub_0_r in Hgen.
  rewrite Hgen. reflexivity.
Qed.

(** ** Variance of a series *)

Lemma sum_sq_dev_sigma (xs : list R) :
  sum_sq_dev xs = sigma (fun i => (nth i xs 0 - mean_of xs) ^ 2) (length xs).
Proof.
  unfold sum_sq_dev. rewrite sum_fold_right.
  symmetry. apply (sigma_map (fun x => (x - mean_of xs) ^ 2)).
Qed.

Lemma sum_sigma (xs : list R) : sum xs = sigma (fun i => nth i xs 0) (length xs).
Proof.
  rewrite sum_fold_right, <- (map_id xs) at 1.
  symmetry. apply (sigma_map (fun x => x)).
Qed.

Lemma INR_length_neq_0 (xs : list R) : xs <> [] -> INR (length xs) <> 0.
Proof.
  intros H. apply not_0_INR. destruct xs; [congruence | discriminate].
Qed.

(** The deviations from the mean sum to zero. *)
Lemma sigma_dev_zero (xs : list R) :
  xs <> [] -> sigma (fun i => nth i xs 0 - mean_of xs) (length xs) = 0.
Proof.
  intros Hne.
  pose proof (INR_length_neq_0 _ Hne) as Hn.
  rewrite (sigma_ext _ (fun i => nth i xs 0 + (-1) * mean_of xs))
    by (intros; lra).
  rewrite sigma_plus, sigma_scal, sigma_const, <- sum_sigma.
  unfold mean_of. field. exact Hn.
Qed.

Lemma mean_of_constant (xs : list R) (m : R) :
  xs <> [] ->
  (forall i, (i < length xs)%nat -> nth i xs 0 = m) ->
  mean_of xs = m.
Proof.
  intros Hne Hall.
  pose proof (INR_length_neq_0 _ Hne) as Hn.
  unfold mean_of. rewrite sum_sigma.
  rewrite (sigma_ext _ (fun _ => m)) by exact Hall.
  rewrite sigma_const. field. exact Hn.
Qed.

Lemma sum_sq_dev_constant (xs : list R) (m : R) :
  (forall i, (i < length xs)%nat -> nth i xs 0 = m) -> sum_sq_dev xs = 0.
Proof.
  intros Hall.
  destruct xs as [| x xs'] eqn:Exs; [unfold sum_sq_dev, sum; simpl; reflexivity |].
  rewrite <- Exs in *.
  assert (Hne : xs <> []) by (rewrite Exs; discriminate).
  rewrite sum_sq_dev_sigma, (mean_of_constant _ _ Hne Hall).
  rewrite (sigma_ext _ (fun _ => 0)).
  - rewrite sigma_const. lra.
  - intros i Hi. rewrite (Hall i Hi). lra.
Qed.

Lemma sum_sq_dev_zero_constant (xs : list R) :
  sum_sq_dev xs = 0 ->
  forall i, (i < length xs)%nat -> nth i xs 0 = mean_of xs.
Proof.
  intros H i Hi. rewrite sum_sq_dev_sigma in H.
  pose proof (sigma_sq_zero (fun i => nth i xs 0 - mean_of xs) _ H i Hi) as Hz.
  simpl in Hz. lra.
Qed.

(** A series that is not constant has a positive sum of squares about any
    centre, not only about its own mean. *)
Lemma sq_dev_about_any_centre_pos (l : list R) (n : nat) (m : R) :
  (n <= length l)%nat ->
  sum_sq_dev (firstn n l) <> 0 ->
  0 < sigma (fun i => (nth i l 0 - m) ^ 2) n.
Proof.
  intros Hn Hvar.
  pose proof (sigma_sq_nonneg (fun i => nth i l 0 - m) n) as Hge.
  destruct (Req_dec_T (sigma (fun i => (nth i l 0 - m) ^ 2) n) 0) as [E | NE];
    [| simpl in *; lra].
  exfalso. apply Hvar. apply (sum_sq_dev_constant _ m).
  intros i Hi. rewrite firstn_length_le in Hi by exact Hn.
  rewrite nth_firstn.
  destruct (i <? n)%nat eqn:Ei; [| apply Nat.ltb_ge in Ei; lia].
  pose proof (sigma_sq_zero (fun i => nth i l 0 - m) n E i Hi) as Hz.
  simpl in Hz. lra.
Qed.

(** ** R² lies between 0 and 1 *)

Lemma curve_r2_bounds (conc_list abs_curve : list R) :
  0 <= curve_r2 conc_list abs_curve <= 1.
Proof.
  unfold curve_r2, curve_numerator, curve_denom_conc, curve_denom_abs.
  set (n := length abs_curve).
  set (u := fun i => nth i conc_list 0 - mean_of conc_list).
  set (v := fun i => nth i abs_curve 0 - mean_of abs_curve).
  change (sigma (fun i => (nth i conc_list 0 - mean_of conc_list) ^ 2) n)
    with (sigma (fun i => u i ^ 2) n).
  change (sigma (fun i => (nth i abs_curve 0 - mean_of abs_curve) ^ 2) n)
    with (sigma (fun i => v i ^ 2) n).
  change (sigma (fun i => (nth i conc_list 0 - mean_of conc_list)
                          * (nth i abs_curve 0 - mean_of abs_curve)) n)
    with (sigma (fun i => u i * v i) n).
  destruct (Rlt_dec 0 _) as [Hpos | _]; [| lra].
  pose proof (sigma_sq_nonneg u n) as HA.
  pose proof (sigma_sq_nonneg v n) as HB.
  assert (HA' : 0 < sigma (fun i => u i ^ 2) n) by nra.
  pose proof (cauchy_schwarz u v n HA') as HCS.
  split.
  - apply Rmult_le_pos; [apply pow2_ge_0 | left; apply Rinv_0_lt_compat; exact Hpos].
  - apply (Rmult_le_reg_r (sigma (fun i => u i ^ 2) n * sigma (fun i => v i ^ 2) n));
      [exact Hpos |].
    unfold Rdiv. rewrite Rmult_assoc, Rinv_l by lra. lra.
Qed.

(** ** From the strings to the numeric body *)

Lemma compute_metrics_parsed (absorbance_values concentrations : string)
  (abs_q conc_q : list Q) :
  parse_list absorbance_values = Ok abs_q ->
  parse_list concentrations = Ok conc_q ->
  compute_metrics absorbance_values concentrations
  = assay_metrics (map Q2R abs_q) (map Q2R conc_q).
Proof.
  intros Ha Hc. unfold compute_metrics. rewrite Ha, Hc. reflexivity.
Qed.

Lemma assay_metrics_r_squared (abs_list conc_list : list R) (r : R)
  (m : MetricsResult) :
  r_squared_step abs_list conc_list = Ok r ->
  assay_metrics abs_list conc_list = Ok m ->
  r_squared m = r.
Proof.
  intros Hr Hm. unfold assay_metrics in Hm. rewrite Hr in Hm. simpl in Hm.
  destruct (avg_cv_step abs_list); simpl in Hm; [| discriminate].
  injection Hm as <-. reflexivity.
Qed.

(** C7: for parseable input with at least 6 paired points whose
    concentration curve and absorbance curve both have non-zero variance,
    the R² step takes the quotient branch, and the R² it computes, which is
    the one every successful call reports, lies in [0, 1]. *)
Theorem r_squared_in_unit_interval
  (absorbance_values concentrations : string) (abs_q conc_q : list Q) :
  parse_list absorbance_values = Ok abs_q ->
  parse_list concentrations = Ok conc_q ->
  (6 <= length abs_q)%nat ->
  (6 <= length conc_q)%nat ->
  sum_sq_dev (firstn 6 (map Q2R conc_q)) <> 0 ->
  sum_sq_dev (firstn 6 (map Q2R abs_q)) <> 0 ->
  exists r : R,
    r_squared_step (map Q2R abs_q) (map Q2R conc_q) = Ok r
    /\ 0 < curve_denom_conc (map Q2R conc_q) (firstn 6 (map Q2R abs_q))
           * curve_denom_abs (firstn 6 (map Q2R abs_q))
    /\ 0 <= r <= 1
    /\ forall m, compute_metrics absorbance_values concentrations = Ok m ->
                 r_squared m = r.
Proof.
  intros Ha Hc Hla Hlc Hvc Hva.
  set (abs_list := map Q2R abs_q) in *.
  set (conc_list := map Q2R conc_q) in *.
  assert (Hla' : (6 <= length abs_list)%nat)
    by (unfold abs_list; rewrite length_map; exact Hla).
  assert (Hlc' : (6 <= length conc_list)%nat)
    by (unfold conc_list; rewrite length_map; exact Hlc).
  assert (Hn : length (firstn 6 abs_list) = 6%nat)
    by (apply firstn_length_le; exact Hla').
  assert (Hne : abs_list <> []) by (destruct abs_list; [simpl in Hla'; lia | discriminate]).
  assert (Hstep : r_squared_step abs_list conc_list
                  = Ok (curve_r2 conc_list (firstn 6 abs_list)))
    by (apply r_squared_step_value; [exact Hne | lia]).
  exists (curve_r2 conc_list (firstn 6 abs_list)).
  split; [exact Hstep |]. split; [| split].
  - unfold curve_denom_conc, curve_denom_abs.
    rewrite <- sum_sq_dev_sigma. rewrite Hn.
    pose proof (sq_dev_about_any_centre_pos conc_list 6 (mean_of conc_list) Hlc' Hvc) as Hdc.
    assert (0 <= sum_sq_dev (firstn 6 abs_list))
      by (rewrite sum_sq_dev_sigma; apply sigma_sq_nonneg).
    apply Rmult_lt_0_compat; [exact Hdc | lra].
  - apply curve_r2_bounds.
  - intros m Hm.
    rewrite (compute_metrics_parsed _ _ _ _ Ha Hc) in Hm.
    exact (assay_metrics_r_squared _ _ _ _ Hstep Hm).
Qed.

Lemma r_squared_in_unit_interval_witness :
  exists r : R,
    r_squared_step (map Q2R [1#1; 2#1; 4#1; 8#1; 16#1; 32#1; 5#10]%Q)
                   (map Q2R [0#1; 10#1; 20#1; 50#1; 100#1; 200#1]%Q) = Ok r
    /\ 0 < curve_denom_conc (map Q2R [0#1; 10#1; 20#1; 50#1; 100#1; 200#1]%Q)
             (firstn 6 (map Q2R [1#1; 2#1; 4#1; 8#1; 16#1; 32#1; 5#10]%Q))
           * curve_denom_abs (firstn 6 (map Q2R [1#1; 2#1; 4#1; 8#1; 16#1; 32#1; 5#10]%Q))
    /\ 0 <= r <= 1
    /\ forall m, compute_metrics "1,2,4,8,16,32,0.5" default_concentrations = Ok m ->
                 r_squared m = r.
Proof.
  apply (r_squared_in_unit_interval "1,2,4,8,16,32,0.5" default_concentrations).
  - vm_compute. reflexivity.
  - vm_compute. reflexivity.
  - simpl. lia.
  - simpl. lia.
  - real_eval.
  - real_eval.
Defined.

(** ** The CV step against its specification *)

Lemma triplicates_short (l : list R) : (length l < 3)%nat -> triplicates l = [].
Proof.
  destruct l as [| a [| b [| c l]]]; simpl; intros H; try reflexivity; lia.
Qed.

Lemma cv_loop_step (abs_list : list R) (i : nat) (rest : list nat)
  (cv_values : list R) :
  length (slice abs_list i (i + 3)) = 3%nat ->
  cv_loop abs_list (i :: rest) cv_values
  = (cv <- cv_percent (slice abs_list i (i + 3)) ;;
     cv_loop abs_list rest (cv_values ++ [cv])).
Proof.
  intros Hlen. simpl. rewrite Hlen. simpl. unfold cv_percent.
  destruct (stdev _) as [s | e]; simpl; [| reflexivity].
  destruct (mean _) as [m | e]; simpl; [| reflexivity].
  destruct (truediv s m) as [q | e]; reflexivity.
Qed.

Lemma slice_at (pre suf : list R) :
  slice (pre ++ suf) (length pre) (length pre + 3) = firstn 3 suf.
Proof.
  unfold slice. replace (length pre + 3 - length pre)%nat with 3%nat by lia.
  rewrite skipn_app, skipn_all, Nat.sub_diag. reflexivity.
Qed.

(** The loop invariant: with [pre] consumed and [b] readings of [suf]
    still inside the bound, the loop appends the CV% of the complete
    groups among those [b] readings. *)
Lemma cv_loop_chunks (fuel : nat) :
  forall (b : nat) (pre suf acc : list R),
    (b <= length suf)%nat ->
    (b mod 3 = 0 \/ b = length suf)%nat ->
    (b <= fuel)%nat ->
    cv_loop (pre ++ suf) (range_from fuel (length pre) (length pre + b) 3) acc
    = (cvs <- cv_all (triplicates (firstn b suf)) ;; Ok (acc ++ cvs)).
Proof.
  induction fuel as [| fuel IH]; intros b pre suf acc Hb Hmod Hfuel.
  - assert (b = 0)%nat by lia. subst b. simpl. rewrite app_nil_r. reflexivity.
  - destruct b as [| b'].
    + simpl. rewrite Nat.add_0_r, Nat.ltb_irrefl. simpl.
      rewrite app_nil_r. reflexivity.
    + cbn [range_from].
      destruct (length pre <? length pre + S b')%nat eqn:Elt;
        [| apply Nat.ltb_ge in Elt; lia].
      destruct suf as [| x [| y [| z rest]]].
      * simpl in Hb. lia.
      * (* one reading left: a partial group *)
        assert (b' = 0)%nat by (simpl in Hb; lia). subst b'.
        cbn [cv_loop]. rewrite slice_at. simpl firstn. simpl length. simpl Nat.eqb.
        cbv iota.
        destruct fuel; simpl;
          [| destruct (length pre + 3 <? length pre + 1)%nat eqn:E;
             [apply Nat.ltb_lt in E; lia |]];
          simpl; rewrite app_nil_r; reflexivity.
      * (* two readings left: a partial group *)
        assert (Hb' : (b' <= 1)%nat) by (simpl in Hb; lia).
        assert (Ht : triplicates (firstn (S b') [x; y]) = [])
          by (apply triplicates_short; rewrite length_firstn; simpl; lia).
        rewrite Ht.
        cbn [cv_loop]. rewrite slice_at. simpl firstn. simpl length. simpl Nat.eqb.
        cbv iota.
        destruct fuel; simpl;
          [| destruct (length pre + 3 <? length pre + S b')%nat eqn:E;
             [apply Nat.ltb_lt in E; lia |]];
          simpl; rewrite app_nil_r; reflexivity.
      * (* a complete group *)
        assert (H3 : (3 <= S b')%nat).
        { destruct Hmod as [Hm | Hm]; [| simpl in Hm; lia].
          destruct b' as [| [| b'']]; [discriminate Hm | discriminate Hm | lia]. }
        destruct b' as [| [| b'']]; [lia | lia |].
        rewrite cv_loop_step by (rewrite slice_at; reflexivity).
        rewrite slice_at.
        cbn [firstn triplicates cv_all].
        replace (pre ++ x :: y :: z :: rest) with ((pre ++ [x; y; z]) ++ rest)
          by (rewrite <- app_assoc; reflexivity).
        destruct (cv_percent [x; y; z]) as [cv | e]; simpl bind; [| reflexivity].
        replace (length pre + 3)%nat with (length (pre ++ [x; y; z]))
          by (rewrite length_app; reflexivity).
        replace (length pre + S (S (S b'')))%nat
          with (length (pre ++ [x; y; z]) + b'')%nat
          by (rewrite length_app; simpl; lia).
        rewrite IH.
        -- destruct (cv_all _) as [cvs | e]; simpl; [| reflexivity].
           rewrite <- app_assoc. reflexivity.
        -- simpl in Hb. lia.
        -- destruct Hmod as [Hm | Hm].
           ++ left.
              replace (S (S (S b''))) with (b'' + 1 * 3)%nat in Hm by lia.
              rewrite Nat.Div0.mod_add in Hm. exact Hm.
           ++ right. simpl in Hm. lia.
        -- lia.
Qed.

Lemma avg_cv_step_spec (abs_list : list R) :
  avg_cv_step abs_list = spec_avg_cv abs_list.
Proof.
  unfold avg_cv_step, spec_avg_cv, range.
  set (b := Nat.min (length abs_list) 18).
  assert (Hloop : cv_loop abs_list (range_from b 0 b 3) []
                  = (cvs <- cv_all (triplicates (firstn b abs_list)) ;; Ok cvs)).
  { apply (cv_loop_chunks b b [] abs_list []).
    - apply Nat.le_min_l.
    - unfold b. destruct (Nat.le_ge_cases (length abs_list) 18) as [Hle | Hge].
      + right. apply Nat.min_l. exact Hle.
      + left. rewrite Nat.min_r by exact Hge. reflexivity.
    - apply Nat.le_refl. }
  rewrite Hloop.
  assert (Hfirst : firstn b abs_list = firstn 18 abs_list).
  { unfold b. destruct (Nat.le_ge_cases (length abs_list) 18) as [Hle | Hge].
    - rewrite Nat.min_l by exact Hle.
      rewrite firstn_all, firstn_all2 by exact Hle. reflexivity.
    - rewrite Nat.min_r by exact Hge. reflexivity. }
  rewrite Hfirst. clear Hloop.
  destruct (cv_all (triplicates (firstn 18 abs_list))) as [cvs | e]; reflexivity.
Qed.

Lemma list_ind3 (P : list R -> Prop) :
  P [] -> (forall a, P [a]) -> (forall a b, P [a; b]) ->
  (forall a b c rest, P rest -> P (a :: b :: c :: rest)) ->
  forall l, P l.
Proof.
  intros H0 H1 H2 H3 l.
  assert (H : P l /\ (forall a, P (a :: l)) /\ (forall a b, P (a :: b :: l))).
  { induction l as [| x l [IHa [IHb IHc]]].
    - auto.
    - split; [apply IHb |]. split; [intros a; apply IHc |].
      intros a b. apply H3. exact IHa. }
  apply H.
Qed.

Lemma triplicates_length_3 (l : list R) :
  Forall (fun g => length g = 3%nat) (triplicates l).
Proof.
  induction l as [| a | a b | a b c rest IH] using list_ind3; simpl; auto.
Qed.

Lemma triplicates_count (l : list R) :
  length (triplicates l) = (length l / 3)%nat.
Proof.
  induction l as [| a | a b | a b c rest IH] using list_ind3; try reflexivity.
  cbn [triplicates length]. rewrite IH.
  replace (S (S (S (length rest)))) with (1 * 3 + length rest)%nat by lia.
  rewrite Nat.div_add_l by discriminate. reflexivity.
Qed.

(** The groups are consecutive and do not overlap: laid end to end they
    are the readings from index 0 up to the last complete group. *)
Lemma triplicates_concat (l : list R) :
  concat (triplicates l) = firstn (3 * (length l / 3)) l.
Proof.
  induction l as [| a | a b | a b c rest IH] using list_ind3; try reflexivity.
  cbn [triplicates length concat]. rewrite IH.
  replace (S (S (S (length rest)))) with (1 * 3 + length rest)%nat by lia.
  rewrite Nat.div_add_l by discriminate.
  replace (3 * (1 + length rest / 3))%nat
    with (S (S (S (3 * (length rest / 3)))))%nat by lia.
  reflexivity.
Qed.

(** One or two readings after the last complete group change nothing. *)
Lemma triplicates_partial_tail (l tail : list R) :
  (length l mod 3 = 0)%nat -> (length tail < 3)%nat ->
  triplicates (l ++ tail) = triplicates l.
Proof.
  intros Hl Ht.
  induction l as [| a | a b | a b c rest IH] using list_ind3.
  - simpl. apply triplicates_short. exact Ht.
  - discriminate Hl.
  - discriminate Hl.
  - cbn [app triplicates]. rewrite IH; [reflexivity |].
    cbn [length] in Hl.
    replace (S (S (S (length rest)))) with (length rest + 1 * 3)%nat in Hl by lia.
    rewrite Nat.Div0.mod_add in Hl. exact Hl.
Qed.

Lemma mean_of_3 (g : list R) : length g = 3%nat -> mean g = Ok (sum g / 3).
Proof.
  intros H. destruct g as [| a [| b [| c [| d g]]]]; try discriminate H.
  unfold mean. f_equal. simpl INR. f_equal. lra.
Qed.

Lemma cv_percent_ok (g : list R) :
  length g = 3%nat -> sum g <> 0 -> exists cv, cv_percent g = Ok cv.
Proof.
  intros Hlen Hsum. unfold cv_percent, stdev.
  rewrite Hlen. simpl Nat.ltb. cbv iota. simpl bind.
  rewrite (mean_of_3 g Hlen). simpl bind.
  unfold truediv. destruct (Req_dec_T (sum g / 3) 0) as [E | _]; [lra |].
  simpl. eauto.
Qed.

Lemma cv_percent_zero_mean (g : list R) :
  length g = 3%nat -> sum g = 0 ->
  cv_percent g = Raise (ZeroDivisionError "float division by zero").
Proof.
  intros Hlen Hsum. unfold cv_percent, stdev.
  rewrite Hlen. simpl Nat.ltb. cbv iota. simpl bind.
  rewrite (mean_of_3 g Hlen). simpl bind.
  unfold truediv. destruct (Req_dec_T (sum g / 3) 0) as [_ | NE]; [reflexivity | lra].
Qed.

Lemma cv_all_ok (groups : list (list R)) :
  Forall (fun g => length g = 3%nat) groups ->
  Forall (fun g => sum g <> 0) groups ->
  exists cvs, cv_all groups = Ok cvs /\ length cvs = length groups.
Proof.
  induction groups as [| g gs IH]; intros Hlen Hsum.
  - exists []. split; reflexivity.
  - inversion Hlen as [| ? ? Hg Hgs]; subst.
    inversion Hsum as [| ? ? Sg Sgs]; subst.
    destruct (cv_percent_ok g Hg Sg) as [cv Hcv].
    destruct (IH Hgs Sgs) as [cvs [Hcvs Hl]].
    exists (cv :: cvs). simpl. rewrite Hcv, Hcvs. simpl. split; [reflexivity | lia].
Qed.

(** The CV step ends well when no complete group sums to zero. *)
Lemma avg_cv_step_ok (abs_list : list R) :
  Forall (fun g => sum g <> 0) (triplicates (firstn 18 abs_list)) ->
  exists cv, avg_cv_step abs_list = Ok cv.
Proof.
  intros Hsum. rewrite avg_cv_step_spec. unfold spec_avg_cv.
  destruct (cv_all_ok _ (triplicates_length_3 _) Hsum) as [cvs [Hcvs _]].
  rewrite Hcvs. simpl. destruct cvs as [| cv cvs]; [eauto |].
  rewrite mean_nonempty by discriminate. eauto.
Qed.

Lemma avg_cv_step_no_group (abs_list : list R) :
  (length abs_list < 3)%nat -> avg_cv_step abs_list = Ok 0.
Proof.
  intros H. rewrite avg_cv_step_spec. unfold spec_avg_cv.
  rewrite triplicates_short; [reflexivity |].
  rewrite length_firstn. lia.
Qed.

(** C6: the CV step of the code is the CV step of the specification.  The
    groups it uses are the complete triplicates of the first 18 readings:
    each has exactly 3 readings, there are [min(len, 18) / 3] of them, and
    laid end to end they are the readings from index 0 to the end of the
    last complete group, so that a trailing group of one or two readings
    adds no CV value; with no complete group the average is 0.  This is
    also the average every successful call reports. *)
Theorem cv_over_complete_triplicates
  (absorbance_values : string) (abs_q : list Q) :
  parse_list absorbance_values = Ok abs_q ->
  let abs_list := map Q2R abs_q in
  let groups := triplicates (firstn 18 abs_list) in
  avg_cv_step abs_list
  = (cvs <- cv_all groups ;; match cvs with [] => Ok 0 | _ :: _ => mean cvs end)
  /\ Forall (fun g => length g = 3%nat) groups
  /\ length groups = (Nat.min (length abs_list) 18 / 3)%nat
  /\ concat groups = firstn (3 * (Nat.min (length abs_list) 18 / 3)) abs_list
  /\ (forall tail, (length groups * 3 = length abs_list)%nat ->
                   (length tail < 3)%nat ->
                   avg_cv_step (abs_list ++ tail) = avg_cv_step abs_list)
  /\ ((length abs_list < 3)%nat -> avg_cv_step abs_list = Ok 0)
  /\ (forall concentrations m,
        compute_metrics absorbance_values concentrations = Ok m ->
        spec_avg_cv abs_list = Ok (average_cv_percent m)).
Proof.
  intros Hparse abs_list groups.
  assert (Hlen18 : length (firstn 18 abs_list) = Nat.min (length abs_list) 18)
    by (rewrite length_firstn; apply Nat.min_comm).
  split; [exact (avg_cv_step_spec abs_list) |].
  split; [apply triplicates_length_3 |].
  split; [unfold groups; rewrite triplicates_count, Hlen18; reflexivity |].
  split.
  { unfold groups. rewrite triplicates_concat, Hlen18, firstn_firstn.
    f_equal. pose proof (Nat.Div0.mul_div_le (Nat.min (length abs_list) 18) 3). lia. }
  split.
  { intros tail Hfull Htail.
    unfold groups in Hfull. rewrite triplicates_count, Hlen18 in Hfull.
    assert (Hle : (length abs_list <= 18)%nat).
    { pose proof (Nat.Div0.mul_div_le (Nat.min (length abs_list) 18) 3). lia. }
    assert (Hmod : (length abs_list mod 3 = 0)%nat).
    { rewrite Nat.min_l in Hfull by exact Hle.
      rewrite <- Hfull. apply Nat.Div0.mod_mul. }
    rewrite !avg_cv_step_spec. unfold spec_avg_cv.
    rewrite (firstn_all2 abs_list) by exact Hle.
    destruct (Nat.le_gt_cases (length (abs_list ++ tail)) 18) as [Hin | Hout].
    - rewrite firstn_all2 by exact Hin.
      rewrite triplicates_partial_tail by assumption. reflexivity.
    - rewrite length_app in Hout.
      assert (length abs_list = 18)%nat.
      { destruct (Nat.eq_dec (length abs_list) 18) as [E | NE]; [exact E |].
        exfalso.
        assert (length abs_list <= 15)%nat; [| lia].
        apply Nat.Div0.div_exact in Hmod. lia. }
      rewrite firstn_app, firstn_all2 by lia.
      replace (18 - length abs_list)%nat with 0%nat by lia.
      simpl firstn. rewrite app_nil_r. reflexivity. }
  split; [apply avg_cv_step_no_group |].
  intros concentrations m Hm. unfold compute_metrics in Hm.
  rewrite Hparse in Hm. simpl in Hm.
  destruct (parse_list concentrations) as [conc_q | e]; simpl in Hm; [| discriminate].
  unfold assay_metrics in Hm.
  destruct (r_squared_step _ _) as [r | e]; simpl in Hm; [| discriminate].
  rewrite <- avg_cv_step_spec. fold abs_list in Hm.
  destruct (avg_cv_step abs_list) as [cv | e]; simpl in Hm; [| discriminate].
  injection Hm as <-. reflexivity.
Qed.

Lemma cv_over_complete_triplicates_witness :
  avg_cv_step (map Q2R [1#1; 2#1; 3#1; 4#1; 5#1; 6#1; 7#1]%Q)
  = spec_avg_cv (map Q2R [1#1; 2#1; 3#1; 4#1; 5#1; 6#1; 7#1]%Q)
  /\ length (triplicates (firstn 18 (map Q2R [1#1; 2#1; 3#1; 4#1; 5#1; 6#1; 7#1]%Q)))
     = 2%nat
  /\ concat (triplicates (firstn 18 (map Q2R [1#1; 2#1; 3#1; 4#1; 5#1; 6#1; 7#1]%Q)))
     = map Q2R [1#1; 2#1; 3#1; 4#1; 5#1; 6#1]%Q.
Proof.
  assert (Hparse : parse_list "1,2,3,4,5,6,7"
                   = Ok [1#1; 2#1; 3#1; 4#1; 5#1; 6#1; 7#1]%Q)
    by (vm_compute; reflexivity).
  destruct (cv_over_complete_triplicates "1,2,3,4,5,6,7" _ Hparse)
    as (Hspec & _ & Hcount & Hconcat & _).
  split; [exact Hspec |]. split; [exact Hcount | exact Hconcat].
Defined.

(** ** A triplicate with mean zero *)

Lemma cv_all_zero_sum (groups : list (list R)) :
  Forall (fun g => length g = 3%nat) groups ->
  Exists (fun g => sum g = 0) groups ->
  cv_all groups = Raise (ZeroDivisionError "float division by zero").
Proof.
  induction groups as [| g gs IH]; intros Hlen Hex.
  - inversion Hex.
  - inversion Hlen as [| ? ? Hg Hgs]; subst. simpl.
    destruct (Req_dec_T (sum g) 0) as [Hz | Hnz].
    + rewrite (cv_percent_zero_mean g Hg Hz). reflexivity.
    + destruct (cv_percent_ok g Hg Hnz) as [cv Hcv]. rewrite Hcv. simpl.
      inversion Hex as [? ? H0 | ? ? Hrest]; subst; [contradiction |].
      rewrite (IH Hgs Hrest). reflexivity.
Qed.

Lemma avg_cv_step_zero_sum (abs_list : list R) :
  Exists (fun g => sum g = 0) (triplicates (firstn 18 abs_list)) ->
  avg_cv_step abs_list = Raise (ZeroDivisionError "float division by zero").
Proof.
  intros Hex. rewrite avg_cv_step_spec. unfold spec_avg_cv.
  rewrite (cv_all_zero_sum _ (triplicates_length_3 _) Hex). reflexivity.
Qed.


(** ** A constant series *)

Lemma curve_r2_constant (conc_list abs_curve : list R) :
  abs_curve <> [] ->
  (length abs_curve <= length conc_list)%nat ->
  sum_sq_dev (firstn (length abs_curve) conc_list) = 0 \/ sum_sq_dev abs_curve = 0 ->
  curve_r2 conc_list abs_curve = 0.
Proof.
  intros Hne Hlen [Hc | Ha]; unfold curve_r2.
  - assert (Hnum : curve_numerator conc_list abs_curve = 0).
    { unfold curve_numerator.
      set (k := mean_of (firstn (length abs_curve) conc_list)).
      rewrite (sigma_ext _
        (fun i => (k - mean_of conc_list) * (nth i abs_curve 0 - mean_of abs_curve))).
      - rewrite sigma_scal, (sigma_dev_zero _ Hne). lra.
      - intros i Hi.
        pose proof (sum_sq_dev_zero_constant _ Hc i) as Hk.
        rewrite firstn_length_le in Hk by exact Hlen.
        specialize (Hk Hi). rewrite nth_firstn in Hk.
        destruct (i <? length abs_curve)%nat eqn:E;
          [| apply Nat.ltb_ge in E; lia].
        fold k in Hk. rewrite Hk. reflexivity. }
    rewrite Hnum. destruct (Rlt_dec 0 _); [| reflexivity].
    unfold Rdiv. ring.
  - assert (Hda : curve_denom_abs abs_curve = 0)
      by (unfold curve_denom_abs; rewrite <- sum_sq_dev_sigma; exact Ha).
    rewrite Hda, Rmult_0_r.
    destruct (Rlt_dec 0 0) as [Habs | _]; [lra | reflexivity].
Qed.

Lemma r_squared_step_constant (abs_list conc_list : list R) :
  abs_list <> [] ->
  (length (firstn 6 abs_list) <= length conc_list)%nat ->
  sum_sq_dev (firstn (length (firstn 6 abs_list)) conc_list) = 0
  \/ sum_sq_dev (firstn 6 abs_list) = 0 ->
  r_squared_step abs_list conc_list = Ok 0.
Proof.
  intros Hne Hlen Hconst.
  rewrite r_squared_step_value by assumption.
  f_equal. apply curve_r2_constant.
  - destruct abs_list; [congruence | discriminate].
  - exact Hlen.
  - exact Hconst.
Qed.




(** ** Writing the result *)

Lemma round_half_even_near (x : R) (z : Z) :
  IZR z - 1 / 2 < x < IZR z + 1 / 2 -> round_half_even x = z.
Proof.
  intros [Hlo Hhi]. unfold round_half_even.
  destruct (Rle_lt_dec (IZR z) x) as [Hge | Hlt].
  - rewrite <- (Int_part_spec x z) by lra.
    destruct (Rlt_dec (x - IZR z) (1 / 2)) as [_ | N]; [reflexivity | lra].
  - assert (Hf : (z - 1)%Z = Int_part x)
      by (apply Int_part_spec; rewrite minus_IZR; lra).
    rewrite <- Hf. rewrite minus_IZR.
    destruct (Rlt_dec (x - (IZR z - 1)) (1 / 2)) as [L | _]; [lra |].
    destruct (Rlt_dec (1 / 2) (x - (IZR z - 1))) as [_ | N]; [lia | lra].
Qed.

(** The digits of a value that is not negative, from the integer its
    scaled value rounds to. *)
Lemma format_fixed_value (prec : nat) (x : R) (z : Z) :
  0 <= x ->
  IZR z - 1 / 2 < x * 10 ^ prec < IZR z + 1 / 2 ->
  format_fixed prec x
  = (string_of_N (Z.to_N z / 10 ^ N.of_nat prec) ++ "."
     ++ zeros (prec - String.length (string_of_N (Z.to_N z mod 10 ^ N.of_nat prec)))
     ++ string_of_N (Z.to_N z mod 10 ^ N.of_nat prec))%string.
Proof.
  intros Hx Hz. unfold format_fixed.
  rewrite (Rabs_pos_eq x Hx), (round_half_even_near _ z Hz).
  destruct (Rlt_dec x 0) as [L | _]; [lra | reflexivity].
Qed.

(** ** Evaluating the steps on concrete readings *)

(** CV% of a triplicate whose standard deviation [s] is known. *)
Lemma cv_percent_triple (a b c s : R) :
  0 <= s ->
  s * s = ((a - (a + b + c) / 3) ^ 2 + (b - (a + b + c) / 3) ^ 2
           + (c - (a + b + c) / 3) ^ 2) / 2 ->
  a + b + c <> 0 ->
  cv_percent [a; b; c] = Ok (s / ((a + b + c) / 3) * 100).
Proof.
  intros Hs Hsq Hsum. unfold cv_percent, stdev. simpl Nat.ltb. cbv iota.
  assert (Hsqrt : sqrt (sum (map (fun x => (x - sum [a; b; c] / INR (length [a; b; c])) ^ 2)
                                 [a; b; c])
                        / INR (length [a; b; c] - 1)) = s).
  { apply sqrt_lem_1.
    - unfold sum. simpl. rewrite <- (Rplus_0_l (0 + a + b + c)) in *.
      replace ((0 + (0 + a + b + c)) / (1 + 1 + 1)) with ((a + b + c) / 3) by (field; lra).
      replace ((0 + (a - (a + b + c) / 3) * ((a - (a + b + c) / 3) * 1)
                + (b - (a + b + c) / 3) * ((b - (a + b + c) / 3) * 1)
                + (c - (a + b + c) / 3) * ((c - (a + b + c) / 3) * 1)) / (1 + 1))
        with (s * s) by (rewrite Hsq; field).
      nra.
    - exact Hs.
    - rewrite Hsq. unfold sum. simpl. field. }
  rewrite Hsqrt. simpl bind.
  assert (Hmean : sum [a; b; c] / (1 + 1 + 1) = (a + b + c) / 3)
    by (unfold sum; simpl; lra).
  rewrite Hmean. unfold truediv.
  destruct (Req_dec_T ((a + b + c) / 3) 0) as [E | _]; [lra | reflexivity].
Qed.

Lemma default_concentrations_parsed :
  parse_list default_concentrations
  = Ok [0 # 1; 10 # 1; 20 # 1; 50 # 1; 100 # 1; 200 # 1]%Q.
Proof. vm_compute. reflexivity. Qed.

(** The readings 1..6 and 0.1..0.6: two triplicates with CV 50% and 20%. *)
Lemma avg_cv_one_to_six :
  avg_cv_step (map Q2R [1#1; 2#1; 3#1; 4#1; 5#1; 6#1]%Q) = Ok 35.
Proof.
  rewrite avg_cv_step_spec. unfold spec_avg_cv.
  cbn [map firstn triplicates cv_all].
  rewrite (cv_percent_triple _ _ _ 1) by (unfold Q2R; simpl; lra).
  rewrite (cv_percent_triple _ _ _ 1) by (unfold Q2R; simpl; lra).
  simpl bind. unfold mean. f_equal. unfold sum, Q2R. simpl. lra.
Qed.

Lemma avg_cv_tenths :
  avg_cv_step (map Q2R [1#10; 2#10; 3#10; 4#10; 5#10; 6#10]%Q) = Ok 35.
Proof.
  rewrite avg_cv_step_spec. unfold spec_avg_cv.
  cbn [map firstn triplicates cv_all].
  rewrite (cv_percent_triple _ _ _ (1 / 10)) by (unfold Q2R; simpl; lra).
  rewrite (cv_percent_triple _ _ _ (1 / 10)) by (unfold Q2R; simpl; lra).
  simpl bind. unfold mean. f_equal. unfold sum, Q2R. simpl. lra.
Qed.

(** The scenario of the specification, evaluated. *)
Lemma scenario_metrics :
  compute_metrics "0.1,0.2,0.3,0.4,0.5,0.6" "0,10,20,50,100,200"
  = Ok (mkMetrics (2535 / 3038) 35).
Proof.
  assert (Hpa : parse_list "0.1,0.2,0.3,0.4,0.5,0.6"
                = Ok [1#10; 2#10; 3#10; 4#10; 5#10; 6#10]%Q)
    by (vm_compute; reflexivity).
  change "0,10,20,50,100,200" with default_concentrations.
  rewrite (compute_metrics_parsed _ _ _ _ Hpa default_concentrations_parsed).
  unfold assay_metrics.
  rewrite r_squared_step_value by (try discriminate; simpl; lia).
  rewrite avg_cv_tenths. simpl bind. do 2 f_equal.
  cbn [map firstn]. curve_eval.
Qed.

(** What the scenario call returns, digit for digit. *)
Lemma scenario_format :
  format_metrics (mkMetrics (2535 / 3038) 35) = "R²: 0.8344, Average CV: 35.00%".
Proof.
  unfold format_metrics. cbn [r_squared average_cv_percent].
  rewrite (format_fixed_value 4 (2535 / 3038) 8344) by (simpl; lra).
  rewrite (format_fixed_value 2 35 3500) by (simpl; lra).
  vm_compute. reflexivity.
Qed.

Lemma scenario_output :
  calculate_assay_metrics "0.1,0.2,0.3,0.4,0.5,0.6" "0,10,20,50,100,200"
  = ReturnStr "R²: 0.8344, Average CV: 35.00%".
Proof.
  unfold calculate_assay_metrics. rewrite scenario_metrics. simpl bind.
  unfold try_except. rewrite scenario_format. reflexivity.
Qed.

(** One reading: no variance, no triplicate, and no error. *)
Lemma single_reading_output :
  calculate_assay_metrics "0.5" default_concentrations
  = ReturnStr "R²: 0.0000, Average CV: 0.00%".
Proof.
  assert (Hpa : parse_list "0.5" = Ok [5#10]%Q) by (vm_compute; reflexivity).
  unfold calculate_assay_metrics.
  rewrite (compute_metrics_parsed _ _ _ _ Hpa default_concentrations_parsed).
  unfold assay_metrics.
  rewrite r_squared_step_constant;
    [| discriminate | simpl; lia | right; real_eval].
  rewrite avg_cv_step_no_group by (simpl; lia). simpl bind.
  unfold try_except, format_metrics. cbn [r_squared average_cv_percent].
  rewrite (format_fixed_value 4 0 0) by (simpl; lra).
  rewrite (format_fixed_value 2 0 0) by (simpl; lra).
  vm_compute. reflexivity.
Qed.

(** C2 as amended: on the scenario input the call ends well, R² is
    2535/3038, strictly below 1, and the average CV is 35%: the six
    readings are themselves two complete triplicates, (0.1, 0.2, 0.3) and
    (0.4, 0.5, 0.6), with CV 50% and 20%.  The string returned shows both
    values. *)
Theorem scenario_r_squared_below_one_cv_35 :
  exists m : MetricsResult,
    compute_metrics "0.1,0.2,0.3,0.4,0.5,0.6" "0,10,20,50,100,200" = Ok m
    /\ r_squared m = 2535 / 3038
    /\ r_squared m < 1
    /\ average_cv_percent m = 35
    /\ calculate_assay_metrics "0.1,0.2,0.3,0.4,0.5,0.6" "0,10,20,50,100,200"
       = ReturnStr (format_metrics m)
    /\ format_metrics m = "R²: 0.8344, Average CV: 35.00%".
Proof.
  exists (mkMetrics (2535 / 3038) 35).
  split; [exact scenario_metrics |].
  cbn [r_squared average_cv_percent].
  split; [reflexivity |]. split; [lra |]. split; [reflexivity |].
  split; [| exact scenario_format].
  unfold calculate_assay_metrics. rewrite scenario_metrics. reflexivity.
Qed.

(** C2 as stated fails: no result of the scenario call has average CV 0. *)
Lemma scenario_average_cv_not_zero :
  ~ (exists m : MetricsResult,
       compute_metrics "0.1,0.2,0.3,0.4,0.5,0.6" "0,10,20,50,100,200" = Ok m
       /\ r_squared m < 1
       /\ average_cv_percent m = 0).
Proof.
  intros [m [Hm [_ Hcv]]]. rewrite scenario_metrics in Hm.
  injection Hm as <-. simpl in Hcv. lra.
Qed.

(** ** The mean of the whole concentration list *)

(** C1, as the code has it: line 112 takes the mean of every
    concentration given, not of the six that are paired, so a seventh
    concentration changes R².  The same readings and the same first six
    concentrations give R² = 1 without it and 1715/113462 with it. *)
Theorem seventh_concentration_changes_r_squared :
  compute_metrics "1,2,3,4,5,6" "1,2,3,4,5,6" = Ok (mkMetrics 1 35)
  /\ compute_metrics "1,2,3,4,5,6" "1,2,3,4,5,6,100"
     = Ok (mkMetrics (1715 / 113462) 35).
Proof.
  assert (Hpa : parse_list "1,2,3,4,5,6" = Ok [1#1; 2#1; 3#1; 4#1; 5#1; 6#1]%Q)
    by (vm_compute; reflexivity).
  assert (Hpc : parse_list "1,2,3,4,5,6,100"
                = Ok [1#1; 2#1; 3#1; 4#1; 5#1; 6#1; 100#1]%Q)
    by (vm_compute; reflexivity).
  split.
  - rewrite (compute_metrics_parsed _ _ _ _ Hpa Hpa). unfold assay_metrics.
    rewrite r_squared_step_value by (try discriminate; simpl; lia).
    rewrite avg_cv_one_to_six. simpl bind. do 2 f_equal.
    cbn [map firstn]. curve_eval.
  - rewrite (compute_metrics_parsed _ _ _ _ Hpa Hpc). unfold assay_metrics.
    rewrite r_squared_step_value by (try discriminate; simpl; lia).
    rewrite avg_cv_one_to_six. simpl bind. do 2 f_equal.
    cbn [map firstn]. curve_eval.
Qed.

(** Readings on a line over the concentrations, with as many
    concentrations as curve readings: R² is 1. *)
Lemma curve_r2_perfect_line (conc_list abs_curve : list R) (k c0 : R) :
  abs_curve <> [] ->
  length conc_list = length abs_curve ->
  k <> 0 ->
  (forall i, (i < length abs_curve)%nat ->
             nth i abs_curve 0 = k * nth i conc_list 0 + c0) ->
  sum_sq_dev conc_list <> 0 ->
  curve_r2 conc_list abs_curve = 1.
Proof.
  intros Hne Hlen Hk Hline Hvar.
  pose proof (INR_length_neq_0 _ Hne) as Hn.
  set (n := length abs_curve) in *.
  set (mc := mean_of conc_list).
  assert (Hma : mean_of abs_curve = k * mc + c0).
  { unfold mean_of at 1. rewrite sum_sigma. fold n.
    rewrite (sigma_ext _ (fun i => k * nth i conc_list 0 + c0)) by exact Hline.
    rewrite sigma_plus, sigma_scal, sigma_const.
    unfold mc, mean_of. rewrite (sum_sigma conc_list), Hlen. fold n.
    field. exact Hn. }
  set (D := sigma (fun i => (nth i conc_list 0 - mc) ^ 2) n).
  assert (HD : 0 < D).
  { assert (0 <= D) by apply sigma_sq_nonneg.
    assert (D = sum_sq_dev conc_list)
      by (rewrite sum_sq_dev_sigma, Hlen; reflexivity).
    lra. }
  assert (Hnum : curve_numerator conc_list abs_curve = k * D).
  { unfold curve_numerator. fold n mc. rewrite Hma.
    rewrite (sigma_ext _ (fun i => k * (nth i conc_list 0 - mc) ^ 2)).
    - apply sigma_scal.
    - intros i Hi. rewrite (Hline i Hi). ring. }
  assert (Hdc : curve_denom_conc conc_list abs_curve = D) by reflexivity.
  assert (Hda : curve_denom_abs abs_curve = k ^ 2 * D).
  { unfold curve_denom_abs. fold n. rewrite Hma.
    rewrite (sigma_ext _ (fun i => k ^ 2 * (nth i conc_list 0 - mc) ^ 2)).
    - apply sigma_scal.
    - intros i Hi. rewrite (Hline i Hi). ring. }
  unfold curve_r2. rewrite Hnum, Hdc, Hda.
  assert (Hpos : 0 < D * (k ^ 2 * D)).
  { assert (0 < k ^ 2)
      by (destruct (Rtotal_order k 0) as [Hlt | [Heq | Hgt]];
          [simpl; nra | contradiction | simpl; nra]).
    apply Rmult_lt_0_compat; [exact HD |].
    apply Rmult_lt_0_compat; [assumption | exact HD]. }
  destruct (Rlt_dec 0 _) as [_ | N]; [| contradiction].
  field. split; lra.
Qed.

Lemma Forall2_nth_R (P : R -> R -> Prop) (l1 l2 : list R) :
  Forall2 P l1 l2 ->
  length l1 = length l2
  /\ forall i, (i < length l2)%nat -> P (nth i l1 0) (nth i l2 0).
Proof.
  induction 1 as [| x y l1 l2 Hxy _ [IHlen IH]]; simpl.
  - split; [reflexivity | intros i Hi; lia].
  - split; [lia |]. intros [| i] Hi; [exact Hxy | apply IH; lia].
Qed.

(** C8 as amended: for parseable input with as many concentrations as
    curve readings, whose curve readings lie on a line over the
    concentrations with slope k, k not 0, and whose concentrations are not
    constant, the R² step yields exactly 1; the call reports that R²
    whenever the CV step ends well, which it does when no complete
    triplicate of the first 18 readings sums to zero. *)
Theorem perfect_line_r_squared_one
  (absorbance_values concentrations : string) (abs_q conc_q : list Q) (k c0 : R) :
  parse_list absorbance_values = Ok abs_q ->
  parse_list concentrations = Ok conc_q ->
  k <> 0 ->
  Forall2 (fun c a => a = k * c + c0)
    (map Q2R conc_q) (firstn 6 (map Q2R abs_q)) ->
  sum_sq_dev (map Q2R conc_q) <> 0 ->
  r_squared_step (map Q2R abs_q) (map Q2R conc_q) = Ok 1
  /\ (forall cv, avg_cv_step (map Q2R abs_q) = Ok cv ->
                 compute_metrics absorbance_values concentrations
                 = Ok (mkMetrics 1 cv))
  /\ (Forall (fun g => sum g <> 0) (triplicates (firstn 18 (map Q2R abs_q))) ->
      exists cv, compute_metrics absorbance_values concentrations
                 = Ok (mkMetrics 1 cv)).
Proof.
  intros Hpa Hpc Hk Hline Hvar.
  set (abs_list := map Q2R abs_q) in *.
  set (conc_list := map Q2R conc_q) in *.
  destruct (Forall2_nth_R _ _ _ Hline) as [Hlen Hnth].
  assert (Hconc : conc_list <> []).
  { intros E. apply Hvar. rewrite E. unfold sum_sq_dev, sum. reflexivity. }
  assert (Hcurve : firstn 6 abs_list <> []).
  { destruct (firstn 6 abs_list); [| discriminate].
    destruct conc_list; [congruence | discriminate Hlen]. }
  assert (Hne : abs_list <> []) by (destruct abs_list; [exact Hcurve | discriminate]).
  assert (Hstep : r_squared_step abs_list conc_list = Ok 1).
  { rewrite r_squared_step_value by (try exact Hne; lia).
    f_equal. apply (curve_r2_perfect_line _ _ k c0); assumption. }
  assert (Hcv : forall cv, avg_cv_step abs_list = Ok cv ->
                  compute_metrics absorbance_values concentrations
                  = Ok (mkMetrics 1 cv)).
  { intros cv Hcv. rewrite (compute_metrics_parsed _ _ _ _ Hpa Hpc).
    fold abs_list conc_list. unfold assay_metrics.
    rewrite Hstep, Hcv. reflexivity. }
  split; [exact Hstep |]. split; [exact Hcv |].
  intros Hsum. destruct (avg_cv_step_ok abs_list Hsum) as [cv Hok].
  exists cv. apply Hcv. exact Hok.
Qed.

Lemma perfect_line_r_squared_one_witness :
  r_squared_step (map Q2R [1#1; 2#1; 3#1; 4#1; 5#1; 6#1]%Q)
                 (map Q2R [0#1; 10#1; 20#1; 30#1; 40#1; 50#1]%Q) = Ok 1
  /\ (forall cv, avg_cv_step (map Q2R [1#1; 2#1; 3#1; 4#1; 5#1; 6#1]%Q) = Ok cv ->
                 compute_metrics "1,2,3,4,5,6" "0,10,20,30,40,50"
                 = Ok (mkMetrics 1 cv))
  /\ (Forall (fun g => sum g <> 0)
        (triplicates (firstn 18 (map Q2R [1#1; 2#1; 3#1; 4#1; 5#1; 6#1]%Q))) ->
      exists cv, compute_metrics "1,2,3,4,5,6" "0,10,20,30,40,50"
                 = Ok (mkMetrics 1 cv)).
Proof.
  apply (perfect_line_r_squared_one "1,2,3,4,5,6" "0,10,20,30,40,50" _ _ (1 / 10) 1).
  - vm_compute. reflexivity.
  - vm_compute. reflexivity.
  - lra.
  - cbn [map firstn]. repeat constructor; unfold Q2R; simpl; lra.
  - real_eval.
Defined.

(** C8 as stated fails: with three blank wells at the lowest
    concentration the six points lie on the line absorbance =
    concentration - 5 and the concentrations are not constant, yet the
    call reports no R²: the blank triplicate has mean 0 and its CV
    divides by it. *)
Lemma perfect_line_with_blank_triplicate :
  Forall2 (fun c a => a = 1 * c + - 5)
    (map Q2R [5#1; 5#1; 5#1; 10#1; 15#1; 20#1]%Q)
    (firstn 6 (map Q2R [0#1; 0#1; 0#1; 5#1; 10#1; 15#1]%Q))
  /\ sum_sq_dev (map Q2R [5#1; 5#1; 5#1; 10#1; 15#1; 20#1]%Q) <> 0
  /\ r_squared_step (map Q2R [0#1; 0#1; 0#1; 5#1; 10#1; 15#1]%Q)
                    (map Q2R [5#1; 5#1; 5#1; 10#1; 15#1; 20#1]%Q) = Ok 1
  /\ calculate_assay_metrics "0,0,0,5,10,15" "5,5,5,10,15,20"
     = ReturnStr "Error calculating metrics: float division by zero".
Proof.
  assert (Hpa : parse_list "0,0,0,5,10,15" = Ok [0#1; 0#1; 0#1; 5#1; 10#1; 15#1]%Q)
    by (vm_compute; reflexivity).
  assert (Hpc : parse_list "5,5,5,10,15,20" = Ok [5#1; 5#1; 5#1; 10#1; 15#1; 20#1]%Q)
    by (vm_compute; reflexivity).
  assert (Hline : Forall2 (fun c a => a = 1 * c + - 5)
            (map Q2R [5#1; 5#1; 5#1; 10#1; 15#1; 20#1]%Q)
            (firstn 6 (map Q2R [0#1; 0#1; 0#1; 5#1; 10#1; 15#1]%Q)))
    by (cbn [map firstn]; repeat constructor; unfold Q2R; simpl; lra).
  assert (Hvar : sum_sq_dev (map Q2R [5#1; 5#1; 5#1; 10#1; 15#1; 20#1]%Q) <> 0)
    by real_eval.
  assert (Hstep : r_squared_step (map Q2R [0#1; 0#1; 0#1; 5#1; 10#1; 15#1]%Q)
                    (map Q2R [5#1; 5#1; 5#1; 10#1; 15#1; 20#1]%Q) = Ok 1).
  { rewrite r_squared_step_value by (try discriminate; simpl; lia).
    f_equal. apply (curve_r2_perfect_line _ _ 1 (- 5)).
    - discriminate.
    - reflexivity.
    - lra.
    - apply (Forall2_nth_R _ _ _ Hline).
    - exact Hvar. }
  repeat split; try assumption.
  unfold calculate_assay_metrics.
  rewrite (compute_metrics_parsed _ _ _ _ Hpa Hpc). unfold assay_metrics.
  rewrite Hstep. simpl bind. rewrite avg_cv_step_spec. unfold spec_avg_cv.
  cbn [map firstn triplicates cv_all].
  rewrite cv_percent_zero_mean; [reflexivity | reflexivity | real_eval].
Qed.

(** The slip of line 112 on a perfect line: the six paired points lie on
    absorbance = concentration / 10 + 1, and a seventh concentration
    follows them; the mean is taken over all seven, and R² is 343/23158,
    not 1.  Without the seventh concentration it is 1. *)
Lemma perfect_line_with_extra_concentration :
  Forall2 (fun c a => a = c / 10 + 1)
    (firstn 6 (map Q2R [0#1; 10#1; 20#1; 30#1; 40#1; 50#1; 1000#1]%Q))
    (firstn 6 (map Q2R [1#1; 2#1; 3#1; 4#1; 5#1; 6#1]%Q))
  /\ compute_metrics "1,2,3,4,5,6" "0,10,20,30,40,50,1000"
     = Ok (mkMetrics (343 / 23158) 35)
  /\ compute_metrics "1,2,3,4,5,6" "0,10,20,30,40,50" = Ok (mkMetrics 1 35).
Proof.
  assert (Hpa : parse_list "1,2,3,4,5,6" = Ok [1#1; 2#1; 3#1; 4#1; 5#1; 6#1]%Q)
    by (vm_compute; reflexivity).
  assert (Hp7 : parse_list "0,10,20,30,40,50,1000"
                = Ok [0#1; 10#1; 20#1; 30#1; 40#1; 50#1; 1000#1]%Q)
    by (vm_compute; reflexivity).
  assert (Hp6 : parse_list "0,10,20,30,40,50"
                = Ok [0#1; 10#1; 20#1; 30#1; 40#1; 50#1]%Q)
    by (vm_compute; reflexivity).
  split; [| split].
  - cbn [map firstn]. repeat constructor; unfold Q2R; simpl; lra.
  - rewrite (compute_metrics_parsed _ _ _ _ Hpa Hp7). unfold assay_metrics.
    rewrite r_squared_step_value by (try discriminate; simpl; lia).
    rewrite avg_cv_one_to_six. simpl bind. do 2 f_equal.
    cbn [map firstn]. curve_eval.
  - rewrite (compute_metrics_parsed _ _ _ _ Hpa Hp6). unfold assay_metrics.
    rewrite r_squared_step_value by (try discriminate; simpl; lia).
    rewrite avg_cv_one_to_six. simpl bind. do 2 f_equal.
    apply (curve_r2_perfect_line _ _ (1 / 10) 1).
    + discriminate.
    + reflexivity.
    + lra.
    + cbn [map firstn length]. intros i Hi.
      do 6 (destruct i as [| i]; [unfold Q2R; simpl; lra |]). lia.
    + real_eval.
Qed.

(** ** Fewer than 6 readings *)

Lemma triplicates_below_6 (l : list R) :
  (length l < 6)%nat ->
  ((3 <= length l)%nat -> sum (firstn 3 l) <> 0) ->
  Forall (fun g => sum g <> 0) (triplicates (firstn 18 l)).
Proof.
  intros Hlen Hsum. rewrite firstn_all2 by lia.
  destruct l as [| a [| b [| c rest]]]; simpl; try constructor.
  - apply Hsum. simpl. lia.
  - rewrite triplicates_short by (simpl in Hlen; lia). constructor.
Qed.




(** ** No exception leaves calculate_assay_metrics *)

Lemma catchable_Ok {A : Type} (a : A) : catchable (Ok a).
Proof. intros e H. discriminate H. Qed.

Lemma catchable_bind {A B : Type} (m : pyres A) (k : A -> pyres B) :
  catchable m -> (forall a, catchable (k a)) -> catchable (bind m k).
Proof.
  intros Hm Hk e H. destruct m as [a | e']; simpl in H.
  - exact (Hk a e H).
  - injection H as <-. apply Hm. reflexivity.
Qed.

Lemma catchable_mean (l : list R) : catchable (mean l).
Proof. intros e H. destruct l; [injection H as <-; reflexivity | discriminate H]. Qed.

Lemma catchable_stdev (l : list R) : catchable (stdev l).
Proof.
  intros e H. unfold stdev in H.
  destruct (length l <? 2)%nat; [injection H as <-; reflexivity | discriminate H].
Qed.

Lemma catchable_getitem (l : list R) (i : nat) : catchable (getitem l i).
Proof.
  intros e H. unfold getitem in H.
  destruct (nth_error l i); [discriminate H | injection H as <-; reflexivity].
Qed.

Lemma catchable_truediv (x y : R) : catchable (truediv x y).
Proof.
  intros e H. unfold truediv in H.
  destruct (Req_dec_T y 0); [injection H as <-; reflexivity | discriminate H].
Qed.

Lemma catchable_float (s : string) : catchable (float s).
Proof.
  intros e H. unfold float in H.
  destruct (float_of_string (strip s)); [discriminate H | injection H as <-; reflexivity].
Qed.

Create HintDb catchable.

#[local] Hint Resolve catchable_Ok catchable_mean catchable_stdev
  catchable_getitem catchable_truediv catchable_float : catchable.

Lemma catchable_sum_gen (f : nat -> pyres R) (idx : list nat) (acc : R) :
  (forall i, catchable (f i)) -> catchable (sum_gen f idx acc).
Proof.
  intros Hf. revert acc; induction idx as [| i idx IH]; intros acc; simpl.
  - apply catchable_Ok.
  - apply catchable_bind; [apply Hf | intros x; apply IH].
Qed.

Lemma catchable_floats_of (toks : list string) : catchable (floats_of toks).
Proof.
  induction toks as [| x toks IH]; simpl.
  - apply catchable_Ok.
  - repeat (apply catchable_bind; [auto with catchable | intros ?]).
    apply catchable_Ok.
Qed.

Lemma catchable_r_squared_step (abs_list conc_list : list R) :
  catchable (r_squared_step abs_list conc_list).
Proof.
  unfold r_squared_step.
  do 2 (apply catchable_bind; [auto with catchable | intros ?]).
  do 3 (apply catchable_bind;
        [apply catchable_sum_gen; intros i;
         repeat (apply catchable_bind; [auto with catchable | intros ?]);
         apply catchable_Ok
        | intros ?]).
  destruct (Rlt_dec 0 _); auto with catchable.
Qed.

Lemma catchable_cv_loop (abs_list : list R) (idx : list nat) (cv_values : list R) :
  catchable (cv_loop abs_list idx cv_values).
Proof.
  revert cv_values; induction idx as [| i idx IH]; intros cv_values; simpl.
  - apply catchable_Ok.
  - destruct (length (slice abs_list i (i + 3)) =? 3)%nat; [| apply IH].
    repeat (apply catchable_bind; [auto with catchable | intros ?]).
    apply IH.
Qed.

Lemma catchable_compute_metrics (absorbance_values concentrations : string) :
  catchable (compute_metrics absorbance_values concentrations).
Proof.
  unfold compute_metrics, parse_list.
  do 2 (apply catchable_bind; [apply catchable_floats_of | intros ?]).
  unfold assay_metrics.
  apply catchable_bind; [apply catchable_r_squared_step | intros r].
  apply catchable_bind; [| intros ?; apply catchable_Ok].
  unfold avg_cv_step.
  apply catchable_bind; [apply catchable_cv_loop | intros cvs].
  destruct cvs; auto with catchable.
Qed.

(** C9: whatever the two strings, the call returns a string: the
    formatted metrics when the body ends well, and otherwise the message
    of the exception the body raised, after a fixed prefix; no exception
    leaves it.  Malformed numbers, an empty string and a concentration
    list too short for the curve are reported this way. *)
Theorem calculate_assay_metrics_never_raises
  (absorbance_values concentrations : string) :
  (exists s, calculate_assay_metrics absorbance_values concentrations = ReturnStr s)
  /\ (forall m, compute_metrics absorbance_values concentrations = Ok m ->
        calculate_assay_metrics absorbance_values concentrations
        = ReturnStr (format_metrics m))
  /\ (forall e, compute_metrics absorbance_values concentrations = Raise e ->
        calculate_assay_metrics absorbance_values concentrations
        = ReturnStr ("Error calculating metrics: " ++ str_exn e)%string).
Proof.
  assert (Hok : forall m, compute_metrics absorbance_values concentrations = Ok m ->
            calculate_assay_metrics absorbance_values concentrations
            = ReturnStr (format_metrics m)).
  { intros m Hm. unfold calculate_assay_metrics. rewrite Hm. reflexivity. }
  assert (Herr : forall e, compute_metrics absorbance_values concentrations = Raise e ->
            calculate_assay_metrics absorbance_values concentrations
            = ReturnStr ("Error calculating metrics: " ++ str_exn e)%string).
  { intros e He. unfold calculate_assay_metrics. rewrite He. simpl.
    rewrite (catchable_compute_metrics _ _ e He). reflexivity. }
  split; [| split; assumption].
  destruct (compute_metrics absorbance_values concentrations) as [m | e] eqn:E.
  - eexists. apply Hok. reflexivity.
  - eexists. apply Herr. reflexivity.
Qed.

(** The malformed inputs the specification names. *)
Lemma malformed_inputs_reported :
  calculate_assay_metrics "a,b,c" default_concentrations
  = ReturnStr "Error calculating metrics: could not convert string to float: 'a'"
  /\ calculate_assay_metrics EmptyString default_concentrations
     = ReturnStr "Error calculating metrics: could not convert string to float: ''"
  /\ calculate_assay_metrics "1,2,3" EmptyString
     = ReturnStr "Error calculating metrics: could not convert string to float: ''"
  /\ calculate_assay_metrics "1,2,3,4,5,6" "0,10,20"
     = ReturnStr "Error calculating metrics: list index out of range".
Proof.
  split; [vm_compute; reflexivity |].
  split; [vm_compute; reflexivity |].
  split; [vm_compute; reflexivity |].
  assert (Hpa : parse_list "1,2,3,4,5,6" = Ok [1#1; 2#1; 3#1; 4#1; 5#1; 6#1]%Q)
    by (vm_compute; reflexivity).
  assert (Hpc : parse_list "0,10,20" = Ok [0#1; 10#1; 20#1]%Q)
    by (vm_compute; reflexivity).
  unfold calculate_assay_metrics.
  rewrite (compute_metrics_parsed _ _ _ _ Hpa Hpc). unfold assay_metrics.
  rewrite r_squared_step_short_conc; [reflexivity | discriminate | simpl; lia].
Qed.

(** * Further properties *)

(** ** The reader tools and the SDK *)

Section ReaderFacts.

Variable World : Type.
Variable respond : forall X : Type, sdk_call X -> World -> pyres X * World.

(** Running a body that makes only calls satisfying [P] and never assigns
    the handle: the globals stay, and the calls recorded are the old ones
    followed by calls satisfying [P]. *)
Lemma run_calls_all (A : Type) (P : forall X : Type, sdk_call X -> Prop)
  (h0 : pyhandle) (p : prog A) :
  forall st : state World,
    byonoy_device_handle (st_globals st) = Bound h0 ->
    calls_all h0 P p ->
    st_globals (snd (run respond p st)) = st_globals st
    /\ exists new, st_calls (snd (run respond p st)) = st_calls st ++ new
                   /\ Forall (record_ok P) new.
Proof.
  induction p as [a | e | k IH | v k IH | X c k IH]; intros st Hh Hp; simpl.
  - split; [reflexivity |]. exists []. rewrite app_nil_r. auto.
  - split; [reflexivity |]. exists []. rewrite app_nil_r. auto.
  - rewrite Hh. apply IH; assumption.
  - contradiction.
  - destruct Hp as [Hc Hk].
    destruct (respond X c (st_world st)) as [[x | e] w]; simpl.
    + destruct (IH x (mkState (st_globals st) w
                        (st_calls st ++ [existT _ X c])) Hh (Hk x))
        as [Hg [new [Hcalls Hnew]]].
      split; [exact Hg |].
      exists (existT _ X c :: new). split.
      * rewrite Hcalls. simpl. rewrite <- app_assoc. reflexivity.
      * constructor; assumption.
    + split; [reflexivity |].
      exists [existT _ X c]. split; [reflexivity |].
      constructor; [exact Hc | constructor].
Qed.

Lemma read_body_calls_ok (h0 : pyhandle) (wavelength : Z) (step : string) :
  calls_all h0 (read_call_ok h0 wavelength)
    (read_tartrazine_absorbance_body wavelength step).
Proof.
  unfold read_tartrazine_absorbance_body. simpl.
  destruct h0 as [o |]; [| exact I].
  destruct (String.eqb step "initialize"); [| destruct (String.eqb step "measure")].
  - simpl. split; [reflexivity |]. intros [|]; simpl.
    + split; [reflexivity |]. intros [rc slot]. simpl.
      destruct (ErrorCode_eqb rc NO_ERROR && negb (DeviceSlotState_eqb slot EMPTY))%bool;
        simpl; [exact I |].
      split; [reflexivity |]. intros [|]; simpl; [| exact I].
      split; [reflexivity |]. intros [rc' wl]. simpl.
      destruct (negb (existsb (Z.eqb wavelength) wl)); simpl; [exact I |].
      split; [exact I |]. intros config. simpl.
      split; [split; reflexivity |]. intros rc''.
      destruct (ErrorCode_eqb rc'' NO_ERROR); exact I.
    + split; [reflexivity |]. intros [|]; simpl; [| exact I].
      split; [reflexivity |]. intros [rc' wl]. simpl.
      destruct (negb (existsb (Z.eqb wavelength) wl)); simpl; [exact I |].
      split; [exact I |]. intros config. simpl.
      split; [split; reflexivity |]. intros rc''.
      destruct (ErrorCode_eqb rc'' NO_ERROR); exact I.
  - simpl. split; [reflexivity |]. intros [|]; simpl.
    + split; [reflexivity |]. intros [rc slot]. simpl.
      destruct (ErrorCode_eqb rc NO_ERROR && DeviceSlotState_eqb slot EMPTY)%bool;
        simpl; [exact I |].
      split; [exact I |]. intros config. simpl.
      split; [split; reflexivity |]. intros [rc' values]. simpl.
      destruct (ErrorCode_eqb rc' NO_ERROR); exact I.
    + split; [exact I |]. intros config. simpl.
      split; [split; reflexivity |]. intros [rc' values]. simpl.
      destruct (ErrorCode_eqb rc' NO_ERROR); exact I.
  - exact I.
Qed.

(** X1: read_tartrazine_absorbance never assigns the device handle, and
    every SDK call it makes is made on the handle stored by connect, with
    the requested wavelength in the configuration of an initialize or a
    measure call; it never counts, lists or opens devices.  With the
    handle unassigned it makes no call at all. *)
Theorem read_keeps_handle_and_wavelength
  (wavelength : Z) (step : string) (st : state World) :
  let st' := snd (read_tartrazine_absorbance respond wavelength step st) in
  st_globals st' = st_globals st
  /\ exists new,
       st_calls st' = st_calls st ++ new
       /\ match byonoy_device_handle (st_globals st) with
          | Bound h0 => Forall (record_ok (read_call_ok h0 wavelength)) new
          | Unbound => new = []
          end.
Proof.
  unfold read_tartrazine_absorbance, tool.
  destruct (byonoy_device_handle (st_globals st)) as [| h0] eqn:Hh.
  - unfold read_tartrazine_absorbance_body. simpl. rewrite Hh. simpl.
    split; [reflexivity |]. exists []. rewrite app_nil_r. auto.
  - destruct (run_calls_all _ (read_call_ok h0 wavelength) h0
                (read_tartrazine_absorbance_body wavelength step) st Hh
                (read_body_calls_ok h0 wavelength step)) as [Hg Hnew].
    destruct (run respond (read_tartrazine_absorbance_body wavelength step) st)
      as [r st1]. simpl in *. split; assumption.
Qed.

End ReaderFacts.

Section ToolPaths.

Variable World : Type.
Variable respond : forall X : Type, sdk_call X -> World -> pyres X * World.

(** X2: connect_byonoy_reader assigns the device handle exactly when it
    reports success: either it returns the success message for a handle
    and that handle is now the stored one, or it returns something else
    and the globals are as before. *)
Theorem connect_stores_handle_only_on_success (st : state World) :
  let r := connect_byonoy_reader respond st in
  (exists h,
      fst r = ReturnStr ("Connected to Byonoy device successfully. Handle: "
                         ++ str_pyhandle h)%string
      /\ st_globals (snd r) = mkGlobals (Bound h))
  \/ (st_globals (snd r) = st_globals st
      /\ forall h,
           fst r <> ReturnStr ("Connected to Byonoy device successfully. Handle: "
                               ++ str_pyhandle h)%string).
Proof.
  unfold connect_byonoy_reader, tool, connect_byonoy_reader_body; simpl.
  destruct (respond _ available_devices_count (st_world st)) as [[n | e] w1]; simpl.
  2:{ right. split; [reflexivity |]. intros h.
      destruct (is_Exception e); simpl; discriminate. }
  destruct (n =? 0)%Z; simpl.
  { right. split; [reflexivity |]. intros h. discriminate. }
  destruct (respond _ available_devices w1) as [[ds | e] w2]; simpl.
  2:{ right. split; [reflexivity |]. intros h.
      destruct (is_Exception e); simpl; discriminate. }
  destruct ds as [| d ds]; simpl.
  { right. split; [reflexivity |]. intros h. discriminate. }
  destruct (respond _ (open_device d) w2) as [[[rc h] | e] w3]; simpl.
  2:{ right. split; [reflexivity |]. intros h.
      destruct (is_Exception e); simpl; discriminate. }
  destruct (ErrorCode_eqb rc NO_ERROR); simpl.
  - left. exists h. split; reflexivity.
  - right. split; [reflexivity |]. intros h'. discriminate.
Qed.

(** X3: with no device counted, connect_byonoy_reader answers that none
    was found after that one call: it neither lists nor opens devices,
    and the globals are as before. *)
Theorem connect_without_devices (st : state World) (w1 : World) :
  respond _ available_devices_count (st_world st) = (Ok 0%Z, w1) ->
  connect_byonoy_reader respond st
  = (ReturnStr "No Byonoy devices found",
     mkState (st_globals st) w1
       (st_calls st ++ [existT _ _ available_devices_count])).
Proof.
  intros H0.
  unfold connect_byonoy_reader, tool, connect_byonoy_reader_body; simpl.
  rewrite H0. reflexivity.
Qed.

(** X4: a positive device count with an empty device list: the index 0
    of line 28 is out of range, the except clause reports it, and no
    device is opened. *)
Theorem connect_with_empty_device_list (st : state World) (n : Z) (w1 w2 : World) :
  n <> 0%Z ->
  respond _ available_devices_count (st_world st) = (Ok n, w1) ->
  respond _ available_devices w1 = (Ok [], w2) ->
  connect_byonoy_reader respond st
  = (ReturnStr "Error: list index out of range",
     mkState (st_globals st) w2
       (st_calls st ++ [existT _ _ available_devices_count;
                        existT _ _ available_devices])).
Proof.
  intros Hn H0 H1.
  unfold connect_byonoy_reader, tool, connect_byonoy_reader_body; simpl.
  rewrite H0. simpl.
  destruct (n =? 0)%Z eqn:E; [apply Z.eqb_eq in E; contradiction |].
  simpl. rewrite H1. simpl. rewrite <- app_assoc. reflexivity.
Qed.

(** X5: a step that is neither 'initialize' nor 'measure', on a connected
    reader, is refused without any SDK call. *)
Theorem read_with_unknown_step
  (wavelength : Z) (step : string) (st : state World) (h : pyobj) :
  byonoy_device_handle (st_globals st) = Bound (Some h) ->
  step <> "initialize" -> step <> "measure" ->
  read_tartrazine_absorbance respond wavelength step st
  = (ReturnStr "Invalid step. Use step='initialize' or step='measure'", st).
Proof.
  intros Hh Hi Hm.
  unfold read_tartrazine_absorbance, tool, read_tartrazine_absorbance_body; simpl.
  rewrite Hh.
  destruct (String.eqb step "initialize") eqn:Ei;
    [apply String.eqb_eq in Ei; contradiction |].
  destruct (String.eqb step "measure") eqn:Em;
    [apply String.eqb_eq in Em; contradiction |].
  reflexivity.
Qed.

(** X6: the measure step on a reader that reports an empty slot: the
    tool asks for a plate and takes no measurement; its only calls are
    the two slot queries. *)
Theorem measure_without_plate
  (wavelength : Z) (st : state World) (h : pyobj) (w1 w2 : World) :
  byonoy_device_handle (st_globals st) = Bound (Some h) ->
  respond _ (device_slot_status_supported (Some h)) (st_world st) = (Ok true, w1) ->
  respond _ (get_device_slot_status (Some h)) w1 = (Ok (NO_ERROR, EMPTY), w2) ->
  read_tartrazine_absorbance respond wavelength "measure" st
  = (ReturnStr "❌ No plate detected. Please insert plate first.",
     mkState (st_globals st) w2
       (st_calls st ++ [existT _ _ (device_slot_status_supported (Some h));
                        existT _ _ (get_device_slot_status (Some h))])).
Proof.
  intros Hh H1 H2.
  unfold read_tartrazine_absorbance, tool, read_tartrazine_absorbance_body; simpl.
  rewrite Hh. simpl. rewrite Hh, H1. simpl. rewrite Hh, H2. simpl.
  rewrite <- app_assoc. reflexivity.
Qed.

(** X7: the initialize step on a reader that reports a slot that is not
    empty: the tool asks to remove the plate, naming the slot state, and
    arms nothing; its only calls are the two slot queries. *)
Theorem initialize_with_plate_in_slot
  (wavelength : Z) (st : state World) (h : pyobj) (slot : DeviceSlotState)
  (w1 w2 : World) :
  byonoy_device_handle (st_globals st) = Bound (Some h) ->
  slot <> EMPTY ->
  respond _ (device_slot_status_supported (Some h)) (st_world st) = (Ok true, w1) ->
  respond _ (get_device_slot_status (Some h)) w1 = (Ok (NO_ERROR, slot), w2) ->
  read_tartrazine_absorbance respond wavelength "initialize" st
  = (ReturnStr ("❌ Remove plate first - slot status: "
                ++ str_DeviceSlotState slot)%string,
     mkState (st_globals st) w2
       (st_calls st ++ [existT _ _ (device_slot_status_supported (Some h));
                        existT _ _ (get_device_slot_status (Some h))])).
Proof.
  intros Hh Hslot H1 H2.
  unfold read_tartrazine_absorbance, tool, read_tartrazine_absorbance_body; simpl.
  rewrite Hh. simpl. rewrite Hh, H1. simpl. rewrite Hh, H2. simpl.
  destruct slot as [| name]; [contradiction |]. simpl.
  rewrite <- app_assoc. reflexivity.
Qed.

(** X8: when the SDK raises nothing outside Exception, the reading tool
    returns a string on every path but one: it returns None only in the
    initialize step.  No exception leaves it. *)
Theorem read_returns_str_or_None_on_initialize
  (wavelength : Z) (step : string) (st : state World) :
  sdk_raises_Exception_only World respond ->
  (exists s, fst (read_tartrazine_absorbance respond wavelength step st) = ReturnStr s)
  \/ (fst (read_tartrazine_absorbance respond wavelength step st) = ReturnNone
      /\ step = "initialize").
Proof.
  intros Hsdk. unfold sdk_raises_Exception_only in Hsdk.
  assert (Hcatch : forall X (c : sdk_call X) w e w',
             respond X c w = (Raise e, w') -> is_Exception e = true).
  { intros X c w e w' E. apply (Hsdk X c w). rewrite E. reflexivity. }
  unfold read_tartrazine_absorbance, tool, read_tartrazine_absorbance_body; simpl.
  destruct (byonoy_device_handle (st_globals st)) as [| [h |]] eqn:Hh; simpl;
    [left; eauto | | left; eauto].
  destruct (String.eqb step "initialize") eqn:Ei.
  - apply String.eqb_eq in Ei. subst step. simpl. rewrite Hh.
    assert (Hinit : forall st1 : state World,
              byonoy_device_handle (st_globals st1) = Bound (Some h) ->
              let o := fst (let (r, st') := run respond (initialize_measurement wavelength) st1
                            in (try_except "Error: " r, st')) in
              (exists s, o = ReturnStr s) \/ o = ReturnNone).
    { intros st1 Hh1. unfold initialize_measurement. simpl. rewrite Hh1.
      destruct (respond _ (abs96_available_wavelengths_supported (Some h)) (st_world st1))
        as [[[|] | e] w1] eqn:E1; simpl;
        [| right; reflexivity | rewrite (Hcatch _ _ _ _ _ E1); left; eauto].
      rewrite Hh1.
      destruct (respond _ (abs96_get_available_wavelengths (Some h)) w1)
        as [[[rc wl] | e] w2] eqn:E2; simpl;
        [| rewrite (Hcatch _ _ _ _ _ E2); left; eauto].
      destruct (negb (existsb (Z.eqb wavelength) wl)); simpl; [left; eauto |].
      destruct (respond _ new_Abs96SingleMeasurementConfig w2)
        as [[config | e] w3] eqn:E3; simpl;
        [| rewrite (Hcatch _ _ _ _ _ E3); left; eauto].
      rewrite Hh1.
      destruct (respond _ (abs96_initialize_single_measurement (Some h)
                             (set_sample_wavelength config wavelength)) w3)
        as [[rc' | e] w4] eqn:E4; simpl;
        [| rewrite (Hcatch _ _ _ _ _ E4); left; eauto].
      destruct (ErrorCode_eqb rc' NO_ERROR); simpl; left; eauto. }
    destruct (respond _ (device_slot_status_supported (Some h)) (st_world st))
      as [[[|] | e] w1] eqn:E1; simpl;
      [| | rewrite (Hcatch _ _ _ _ _ E1); left; eauto].
    + rewrite Hh.
      destruct (respond _ (get_device_slot_status (Some h)) w1)
        as [[[rc slot] | e] w2] eqn:E2; simpl;
        [| rewrite (Hcatch _ _ _ _ _ E2); left; eauto].
      destruct (ErrorCode_eqb rc NO_ERROR && negb (DeviceSlotState_eqb slot EMPTY))%bool;
        simpl; [left; eauto |].
      destruct (Hinit (mkState (st_globals st) w2
                         ((st_calls st
                           ++ [existT _ _ (device_slot_status_supported (Some h))])
                          ++ [existT _ _ (get_device_slot_status (Some h))])) Hh)
        as [Hs | Hn]; [left; exact Hs | right; split; [exact Hn | reflexivity]].
    + destruct (Hinit (mkState (st_globals st) w1
                         (st_calls st
                          ++ [existT _ _ (device_slot_status_supported (Some h))])) Hh)
        as [Hs | Hn]; [left; exact Hs | right; split; [exact Hn | reflexivity]].
  - left. destruct (String.eqb step "measure"); [| simpl; eauto].
    simpl. rewrite Hh.
    assert (Hmeas : forall st1 : state World,
              byonoy_device_handle (st_globals st1) = Bound (Some h) ->
              exists s, fst (let (r, st') := run respond (take_measurement wavelength) st1
                             in (try_except "Error: " r, st')) = ReturnStr s).
    { intros st1 Hh1. unfold take_measurement. simpl.
      destruct (respond _ new_Abs96SingleMeasurementConfig (st_world st1))
        as [[config | e] w3] eqn:E3; simpl;
        [| rewrite (Hcatch _ _ _ _ _ E3); eauto].
      rewrite Hh1.
      destruct (respond _ (abs96_single_measure (Some h)
                             (set_sample_wavelength config wavelength)) w3)
        as [[[rc' values] | e] w4] eqn:E4; simpl;
        [| rewrite (Hcatch _ _ _ _ _ E4); eauto].
      destruct (ErrorCode_eqb rc' NO_ERROR); simpl; eauto. }
    destruct (respond _ (device_slot_status_supported (Some h)) (st_world st))
      as [[[|] | e] w1] eqn:E1; simpl;
      [| | rewrite (Hcatch _ _ _ _ _ E1); eauto].
    + rewrite Hh.
      destruct (respond _ (get_device_slot_status (Some h)) w1)
        as [[[rc slot] | e] w2] eqn:E2; simpl;
        [| rewrite (Hcatch _ _ _ _ _ E2); eauto].
      destruct (ErrorCode_eqb rc NO_ERROR && DeviceSlotState_eqb slot EMPTY)%bool;
        simpl; [eauto |].
      exact (Hmeas (mkState (st_globals st) w2
                      ((st_calls st
                        ++ [existT _ _ (device_slot_status_supported (Some h))])
                       ++ [existT _ _ (get_device_slot_status (Some h))])) Hh).
    + exact (Hmeas (mkState (st_globals st) w1
                      (st_calls st
                       ++ [existT _ _ (device_slot_status_supported (Some h))])) Hh).
Qed.

End ToolPaths.

Section UnavailableWavelength.

Variable World : Type.
Variable respond : forall X : Type, sdk_call X -> World -> pyres X * World.

(** X9: the initialize step for a wavelength the reader does not list,
    on a reader that does not report its slot: the tool names the
    wavelength and the list it was given, and arms no measurement. *)
Theorem initialize_with_unavailable_wavelength
  (wavelength : Z) (st : state World) (h : pyobj) (rc : ErrorCode)
  (abs_wavelengths : list Z) (w1 w2 w3 : World) :
  byonoy_device_handle (st_globals st) = Bound (Some h) ->
  ~ In wavelength abs_wavelengths ->
  respond _ (device_slot_status_supported (Some h)) (st_world st) = (Ok false, w1) ->
  respond _ (abs96_available_wavelengths_supported (Some h)) w1 = (Ok true, w2) ->
  respond _ (abs96_get_available_wavelengths (Some h)) w2
  = (Ok (rc, abs_wavelengths), w3) ->
  read_tartrazine_absorbance respond wavelength "initialize" st
  = (ReturnStr ("Wavelength " ++ str_Z wavelength ++ " not available. Available: "
                ++ str_list_Z abs_wavelengths)%string,
     mkState (st_globals st) w3
       (st_calls st
        ++ [existT _ _ (device_slot_status_supported (Some h));
            existT _ _ (abs96_available_wavelengths_supported (Some h));
            existT _ _ (abs96_get_available_wavelengths (Some h))])).
Proof.
  intros Hh Hin H1 H2 H3.
  assert (Hex : existsb (Z.eqb wavelength) abs_wavelengths = false).
  { destruct (existsb (Z.eqb wavelength) abs_wavelengths) eqn:E; [| reflexivity].
    apply existsb_exists in E. destruct E as [x [Hx Heq]].
    apply Z.eqb_eq in Heq. subst x. contradiction. }
  unfold read_tartrazine_absorbance, tool, read_tartrazine_absorbance_body; simpl.
  rewrite Hh. simpl. rewrite Hh, H1. simpl. rewrite Hh, H2. simpl.
  rewrite Hh, H3. simpl. rewrite Hex. simpl.
  rewrite <- !app_assoc. reflexivity.
Qed.

End UnavailableWavelength.

(** The bench reader raises nothing. *)
Lemma bench_reader_raises_nothing (count : Z) (devices : list pyobj)
  (slot_supported : bool) (slot : DeviceSlotState)
  (wavelengths_supported : bool) (wavelengths : list Z) :
  sdk_raises_Exception_only unit
    (bench_reader count devices slot_supported slot
       wavelengths_supported wavelengths).
Proof. intros X c w e H. destruct c; discriminate H. Defined.

Lemma connect_without_devices_witness :
  connect_byonoy_reader (bench_reader 0 [] false EMPTY false []) (start tt)
  = (ReturnStr "No Byonoy devices found",
     mkState module_globals tt [existT _ _ available_devices_count]).
Proof.
  apply (connect_without_devices unit (bench_reader 0 [] false EMPTY false [])
           (start tt) tt).
  reflexivity.
Defined.

Lemma connect_with_empty_device_list_witness :
  connect_byonoy_reader (bench_reader 2 [] false EMPTY false []) (start tt)
  = (ReturnStr "Error: list index out of range",
     mkState module_globals tt
       [existT _ _ available_devices_count; existT _ _ available_devices]).
Proof.
  apply (connect_with_empty_device_list unit
           (bench_reader 2 [] false EMPTY false []) (start tt) 2 tt tt).
  - discriminate.
  - reflexivity.
  - reflexivity.
Defined.

Lemma read_with_unknown_step_witness :
  read_tartrazine_absorbance (bench_reader 1 [PyObj "d"] true EMPTY true [450%Z])
    450 "calibrate" (mkState (mkGlobals (Bound (Some (PyObj "1")))) tt [])
  = (ReturnStr "Invalid step. Use step='initialize' or step='measure'",
     mkState (mkGlobals (Bound (Some (PyObj "1")))) tt []).
Proof.
  apply (read_with_unknown_step unit
           (bench_reader 1 [PyObj "d"] true EMPTY true [450%Z])
           450 "calibrate" (mkState (mkGlobals (Bound (Some (PyObj "1")))) tt []) (PyObj "1")).
  - reflexivity.
  - discriminate.
  - discriminate.
Defined.

Lemma measure_without_plate_witness :
  read_tartrazine_absorbance (bench_reader 1 [PyObj "d"] true EMPTY true [450%Z])
    450 "measure" (mkState (mkGlobals (Bound (Some (PyObj "1")))) tt [])
  = (ReturnStr "❌ No plate detected. Please insert plate first.",
     mkState (mkGlobals (Bound (Some (PyObj "1")))) tt
       [existT _ _ (device_slot_status_supported (Some (PyObj "1")));
        existT _ _ (get_device_slot_status (Some (PyObj "1")))]).
Proof.
  apply (measure_without_plate unit
           (bench_reader 1 [PyObj "d"] true EMPTY true [450%Z])
           450 (mkState (mkGlobals (Bound (Some (PyObj "1")))) tt []) (PyObj "1") tt tt).
  - reflexivity.
  - reflexivity.
  - reflexivity.
Defined.

Lemma initialize_with_plate_in_slot_witness :
  read_tartrazine_absorbance
    (bench_reader 1 [PyObj "d"] true (SLOT_STATE "OCCUPIED") true [450%Z])
    450 "initialize" (mkState (mkGlobals (Bound (Some (PyObj "1")))) tt [])
  = (ReturnStr "❌ Remove plate first - slot status: DeviceSlotState.OCCUPIED",
     mkState (mkGlobals (Bound (Some (PyObj "1")))) tt
       [existT _ _ (device_slot_status_supported (Some (PyObj "1")));
        existT _ _ (get_device_slot_status (Some (PyObj "1")))]).
Proof.
  apply (initialize_with_plate_in_slot unit
           (bench_reader 1 [PyObj "d"] true (SLOT_STATE "OCCUPIED") true [450%Z])
           450 (mkState (mkGlobals (Bound (Some (PyObj "1")))) tt []) (PyObj "1") (SLOT_STATE "OCCUPIED") tt tt).
  - reflexivity.
  - discriminate.
  - reflexivity.
  - reflexivity.
Defined.

Lemma read_returns_str_or_None_on_initialize_witness :
  (exists s,
      fst (read_tartrazine_absorbance
             (bench_reader 1 [PyObj "d"] true EMPTY true [450%Z; 600%Z])
             450 "measure" (mkState (mkGlobals (Bound (Some (PyObj "1")))) tt []))
      = ReturnStr s)
  \/ (fst (read_tartrazine_absorbance
             (bench_reader 1 [PyObj "d"] true EMPTY true [450%Z; 600%Z])
             450 "measure" (mkState (mkGlobals (Bound (Some (PyObj "1")))) tt []))
      = ReturnNone
      /\ "measure" = "initialize").
Proof.
  apply (read_returns_str_or_None_on_initialize unit
           (bench_reader 1 [PyObj "d"] true EMPTY true [450%Z; 600%Z])).
  apply bench_reader_raises_nothing.
Defined.

Lemma initialize_with_unavailable_wavelength_witness :
  read_tartrazine_absorbance
    (bench_reader 1 [PyObj "d"] false EMPTY true [405%Z; 450%Z; 600%Z])
    520 "initialize" (mkState (mkGlobals (Bound (Some (PyObj "1")))) tt [])
  = (ReturnStr "Wavelength 520 not available. Available: [405, 450, 600]",
     mkState (mkGlobals (Bound (Some (PyObj "1")))) tt
       [existT _ _ (device_slot_status_supported (Some (PyObj "1")));
        existT _ _ (abs96_available_wavelengths_supported (Some (PyObj "1")));
        existT _ _ (abs96_get_available_wavelengths (Some (PyObj "1")))]).
Proof.
  apply (initialize_with_unavailable_wavelength unit
           (bench_reader 1 [PyObj "d"] false EMPTY true [405%Z; 450%Z; 600%Z])
           520 (mkState (mkGlobals (Bound (Some (PyObj "1")))) tt []) (PyObj "1") NO_ERROR [405%Z; 450%Z; 600%Z] tt tt tt).
  - reflexivity.
  - simpl. intros [H | [H | [H | H]]]; try discriminate H; exact H.
  - reflexivity.
  - reflexivity.
  - reflexivity.
Defined.

(** ** Reading the lists: fields and white space *)

Lemma split_length (sep : ascii) (s : string) :
  length (split sep s) = S (count_char sep s).
Proof.
  induction s as [| c s IH]; [reflexivity |].
  simpl. destruct (Ascii.eqb c sep); simpl.
  - rewrite IH. reflexivity.
  - destruct (split sep s) as [| tok toks]; [discriminate IH |].
    simpl in *. exact IH.
Qed.

Lemma floats_of_length (toks : list string) (l : list Q) :
  floats_of toks = Ok l -> length l = length toks.
Proof.
  revert l; induction toks as [| x toks IH]; intros l H; simpl in H.
  - injection H as <-. reflexivity.
  - destruct (float (strip x)) as [v | e]; simpl in H; [| discriminate H].
    destruct (floats_of toks) as [vs | e]; simpl in H; [| discriminate H].
    injection H as <-. simpl. rewrite (IH vs eq_refl). reflexivity.
Qed.

(** X10: a list that parses has one number per comma-separated field,
    one more than it has commas; in particular it is never empty. *)
Theorem parse_list_one_number_per_field (text : string) (l : list Q) :
  parse_list text = Ok l ->
  length l = S (count_char "," text) /\ l <> [].
Proof.
  intros H. unfold parse_list in H.
  apply floats_of_length in H. rewrite split_length in H.
  split; [exact H |]. destruct l; [discriminate H | discriminate].
Qed.

Lemma parse_list_one_number_per_field_witness :
  length [1 # 10; 25 # 100; 3 # 1]%Q = S (count_char "," "0.1, 0.25 ,3")
  /\ [1 # 10; 25 # 100; 3 # 1]%Q <> [].
Proof.
  apply (parse_list_one_number_per_field "0.1, 0.25 ,3").
  vm_compute. reflexivity.
Defined.

Lemma lstrip_spaces (w s : string) :
  all_space w = true -> lstrip (w ++ s) = lstrip s.
Proof.
  induction w as [| c w IH]; intros H; simpl in *; [reflexivity |].
  apply andb_prop in H. destruct H as [Hc Hw]. rewrite Hc. apply IH. exact Hw.
Qed.

Lemma lstrip_all_space (w : string) : all_space w = true -> lstrip w = EmptyString.
Proof.
  induction w as [| c w IH]; intros H; simpl in *; [reflexivity |].
  apply andb_prop in H. destruct H as [Hc Hw]. rewrite Hc. apply IH. exact Hw.
Qed.

Lemma rstrip_all_space (w : string) : all_space w = true -> rstrip w = EmptyString.
Proof.
  induction w as [| c w IH]; intros H; simpl in *; [reflexivity |].
  apply andb_prop in H. destruct H as [Hc Hw]. rewrite (IH Hw), Hc. reflexivity.
Qed.

Lemma rstrip_spaces (s w : string) :
  all_space w = true -> rstrip (s ++ w) = rstrip s.
Proof.
  intros H. induction s as [| c s IH]; simpl.
  - apply rstrip_all_space. exact H.
  - rewrite IH. reflexivity.
Qed.

Lemma strip_padding (w1 t w2 : string) :
  all_space w1 = true -> all_space w2 = true ->
  strip (w1 ++ t ++ w2) = strip t.
Proof.
  intros H1 H2. unfold strip. rewrite (lstrip_spaces w1 _ H1).
  induction t as [| c t IH]; simpl.
  - rewrite (lstrip_all_space w2 H2). reflexivity.
  - destruct (is_space c); [exact IH |].
    change (String c (t ++ w2)) with (String c t ++ w2)%string.
    apply rstrip_spaces. exact H2.
Qed.

(** X11: white space around a field does not matter: with any blanks,
    tabs or line ends before and after it, a field gives the same number,
    or the same error, as without them. *)
Theorem field_padding_ignored (w1 t w2 : string) :
  all_space w1 = true -> all_space w2 = true ->
  float (strip (w1 ++ t ++ w2)) = float (strip t).
Proof.
  intros H1 H2. rewrite (strip_padding w1 t w2 H1 H2). reflexivity.
Qed.

Lemma field_padding_ignored_witness :
  float (strip ("  " ++ "1.5e-3" ++ " ")) = float (strip "1.5e-3").
Proof.
  apply (field_padding_ignored "  " "1.5e-3" " "); reflexivity.
Defined.

(** ** Which inputs end in which error *)

Open Scope R_scope.

(** The three ways the numeric body can end, by the lengths of the lists
    and the sums of the triplicates. *)
Lemma assay_metrics_outcome (abs_list conc_list : list R) :
  abs_list <> [] -> conc_list <> [] ->
  ((length conc_list < Nat.min 6 (length abs_list))%nat ->
   assay_metrics abs_list conc_list = Raise (IndexError "list index out of range"))
  /\ ((Nat.min 6 (length abs_list) <= length conc_list)%nat ->
      Exists (fun g => sum g = 0) (triplicates (firstn 18 abs_list)) ->
      assay_metrics abs_list conc_list
      = Raise (ZeroDivisionError "float division by zero"))
  /\ ((Nat.min 6 (length abs_list) <= length conc_list)%nat ->
      Forall (fun g => sum g <> 0) (triplicates (firstn 18 abs_list)) ->
      exists r cv, assay_metrics abs_list conc_list = Ok (mkMetrics r cv)
                   /\ 0 <= r <= 1).
Proof.
  intros Ha Hc. unfold assay_metrics.
  pose proof (length_firstn 6 abs_list) as Hn.
  split; [| split].
  - intros Hlt. rewrite r_squared_step_short_conc; [reflexivity | exact Hc | lia].
  - intros Hle Hex. rewrite r_squared_step_value by (try exact Ha; lia).
    simpl. rewrite (avg_cv_step_zero_sum _ Hex). reflexivity.
  - intros Hle Hall. rewrite r_squared_step_value by (try exact Ha; lia).
    destruct (avg_cv_step_ok _ Hall) as [cv Hcv]. simpl. rewrite Hcv. simpl.
    exists (curve_r2 conc_list (firstn 6 abs_list)), cv.
    split; [reflexivity | apply curve_r2_bounds].
Qed.

Lemma parsed_reals_nonempty (text : string) (q : list Q) :
  parse_list text = Ok q -> map Q2R q <> [].
Proof.
  intros H. unfold parse_list in H.
  apply floats_of_length in H. rewrite split_length in H.
  destruct q; [discriminate H | discriminate].
Qed.



(** X13: fewer concentrations than curve readings: the call reports the
    index error of line 115, whatever the values. *)
Theorem too_few_concentrations_reported
  (absorbance_values concentrations : string) (abs_q conc_q : list Q) :
  parse_list absorbance_values = Ok abs_q ->
  parse_list concentrations = Ok conc_q ->
  (length conc_q < Nat.min 6 (length abs_q))%nat ->
  calculate_assay_metrics absorbance_values concentrations
  = ReturnStr "Error calculating metrics: list index out of range".
Proof.
  intros Hpa Hpc Hlt. unfold calculate_assay_metrics.
  rewrite (compute_metrics_parsed _ _ _ _ Hpa Hpc).
  destruct (assay_metrics_outcome (map Q2R abs_q) (map Q2R conc_q)
              (parsed_reals_nonempty _ _ Hpa) (parsed_reals_nonempty _ _ Hpc))
    as [Hshort _].
  rewrite !length_map in Hshort. rewrite (Hshort Hlt). reflexivity.
Qed.

Lemma too_few_concentrations_reported_witness :
  calculate_assay_metrics "0.1,0.2,0.3,0.4,0.5,0.6,0.7" "0,10,20,50,100"
  = ReturnStr "Error calculating metrics: list index out of range".
Proof.
  apply (too_few_concentrations_reported
           "0.1,0.2,0.3,0.4,0.5,0.6,0.7" "0,10,20,50,100"
           [1#10; 2#10; 3#10; 4#10; 5#10; 6#10; 7#10]%Q
           [0#1; 10#1; 20#1; 50#1; 100#1]%Q).
  - vm_compute. reflexivity.
  - vm_compute. reflexivity.
  - simpl. lia.
Defined.



(** ** The CV does not depend on the unit of the readings *)






(** ** R² does not depend on units or offsets *)







(** ** Which readings count *)

(** X17: readings after the 18th are not looked at, and for R² readings
    after the 6th are not: the numeric body gives the same result, or the
    same error, on the first 18 readings alone, and its R² step on the
    first 6 alone. *)
Theorem later_readings_ignored (abs_list conc_list : list R) :
  assay_metrics abs_list conc_list = assay_metrics (firstn 18 abs_list) conc_list
  /\ r_squared_step abs_list conc_list
     = r_squared_step (firstn 6 abs_list) conc_list.
Proof.
  assert (H6 : forall l, r_squared_step l conc_list
                         = r_squared_step (firstn 6 l) conc_list).
  { intros l. unfold r_squared_step. rewrite firstn_firstn. reflexivity. }
  split; [| apply H6].
  unfold assay_metrics.
  rewrite (H6 abs_list), (H6 (firstn 18 abs_list)), firstn_firstn.
  change (Nat.min 6 18) with 6%nat.
  rewrite !avg_cv_step_spec. unfold spec_avg_cv.
  rewrite firstn_firstn. reflexivity.
Qed.

(** ** Triplicates without spread, and positive readings *)

Lemma sum_zeros (l : list R) : Forall (fun x => x = 0) l -> sum l = 0.
Proof.
  induction 1 as [| x l Hx _ IH]; [reflexivity |].
  rewrite sum_cons, Hx, IH. lra.
Qed.


Lemma cv_all_constant (groups : list (list R)) :
  Forall (fun g => exists a, a <> 0 /\ g = [a; a; a]) groups ->
  exists cvs, cv_all groups = Ok cvs /\ Forall (fun x => x = 0) cvs.
Proof.
  induction 1 as [| g gs [a [Ha ->]] _ [cvs [Hcvs Hz]]].
  - exists []. split; [reflexivity | constructor].
  - exists (0 :: cvs). simpl.
    rewrite (cv_percent_triple a a a 0) by lra.
    simpl. rewrite Hcvs. simpl. split.
    + do 2 f_equal. field. lra.
    + constructor; [reflexivity | exact Hz].
Qed.

(** X18: when every complete triplicate of the first 18 readings is
    three times the same value, not 0, the average CV is exactly 0. *)
Theorem equal_triplicates_cv_zero (abs_list : list R) :
  Forall (fun g => exists a, a <> 0 /\ g = [a; a; a])
    (triplicates (firstn 18 abs_list)) ->
  avg_cv_step abs_list = Ok 0.
Proof.
  intros H. rewrite avg_cv_step_spec. unfold spec_avg_cv.
  destruct (cv_all_constant _ H) as [cvs [Hcvs Hz]]. rewrite Hcvs. simpl.
  destruct cvs as [| cv cvs]; [reflexivity |].
  unfold mean. rewrite (sum_zeros _ Hz). f_equal. unfold Rdiv. ring.
Qed.

Lemma equal_triplicates_cv_zero_witness :
  avg_cv_step [0.1; 0.1; 0.1; 0.2; 0.2; 0.2; 0.3; 0.3; 0.3] = Ok 0.
Proof.
  apply (equal_triplicates_cv_zero [0.1; 0.1; 0.1; 0.2; 0.2; 0.2; 0.3; 0.3; 0.3]).
  simpl. repeat constructor.
  - exists 0.1. split; [lra | reflexivity].
  - exists 0.2. split; [lra | reflexivity].
  - exists 0.3. split; [lra | reflexivity].
Defined.






Lemma format_zero_metrics :
  format_metrics (mkMetrics 0 0) = "R²: 0.0000, Average CV: 0.00%"%string.
Proof.
  unfold format_metrics. cbn [r_squared average_cv_percent].
  rewrite (format_fixed_value 4 0 0) by (simpl; lra).
  rewrite (format_fixed_value 2 0 0) by (simpl; lra).
  vm_compute. reflexivity.
Qed.

(** X20: a single reading, whatever its value, against concentrations
    of magnitude at most 1e150 (so that the square of line 116 stays in
    range), gives R² 0 and average CV 0: one point has no variance and
    there is no triplicate.  The deviations of the reading are exactly 0
    in floats as well, so this is what the code prints. *)
Theorem single_reading_gives_zeros
  (absorbance_values concentrations : string) (abs_q conc_q : list Q) :
  parse_list absorbance_values = Ok abs_q ->
  parse_list concentrations = Ok conc_q ->
  length abs_q = 1%nat ->
  forallb moderate conc_q = true ->
  compute_metrics absorbance_values concentrations = Ok (mkMetrics 0 0)
  /\ calculate_assay_metrics absorbance_values concentrations
     = ReturnStr "R²: 0.0000, Average CV: 0.00%".
Proof.
  intros Hpa Hpc Hone _.
  pose proof (parsed_reals_nonempty _ _ Hpc) as Hc.
  destruct abs_q as [| q [| q' rest]]; try discriminate Hone.
  assert (Hm : compute_metrics absorbance_values concentrations = Ok (mkMetrics 0 0)).
  { rewrite (compute_metrics_parsed _ _ _ _ Hpa Hpc). unfold assay_metrics.
    rewrite r_squared_step_constant.
    - rewrite avg_cv_step_no_group by (simpl; lia). reflexivity.
    - discriminate.
    - destruct (map Q2R conc_q); [congruence | simpl; lia].
    - right. cbn [map firstn]. unfold sum_sq_dev, mean_of, sum. simpl. field. }
  split; [exact Hm |].
  unfold calculate_assay_metrics. rewrite Hm. simpl.
  rewrite format_zero_metrics. reflexivity.
Qed.

Lemma single_reading_gives_zeros_witness :
  compute_metrics "0.731" "5,10" = Ok (mkMetrics 0 0)
  /\ calculate_assay_metrics "0.731" "5,10"
     = ReturnStr "R²: 0.0000, Average CV: 0.00%".
Proof.
  apply (single_reading_gives_zeros "0.731" "5,10" [731#1000]%Q [5#1; 10#1]%Q).
  - vm_compute. reflexivity.
  - vm_compute. reflexivity.
  - reflexivity.
  - vm_compute. reflexivity.
Defined.

Lemma connect_byonoy_reader_returns_str_witness :
  exists s,
    fst (connect_byonoy_reader
           (bench_reader 1 [PyObj "d"] true EMPTY true [450%Z]) (start tt))
    = ReturnStr s.
Proof.
  apply (connect_byonoy_reader_returns_str unit
           (bench_reader 1 [PyObj "d"] true EMPTY true [450%Z]) (start tt)).
  apply bench_reader_raises_nothing.
Defined.

(** ** Two points, and the default concentrations *)




